(** * kiota_http.httpx_request_adapter

    A shallow embedding of [HttpxRequestAdapter]
    (src/kiota_http/httpx_request_adapter.py) and the properties of its
    request execution and response resolution pipeline.

    Conventions of the embedding:
    - a Python [str] is a [string] of 8-bit characters; [str.lower] and
      [str.casefold] act on the ASCII letters (header values are ASCII in
      practice, and every literal the adapter compares against is ASCII);
    - [None] is [None] of an [option]; an attribute access on it raises
      [AttributeError];
    - an [async def] is one sequential computation: every [await] is a call;
    - the collaborators (authentication provider, httpx client, parse node
      factory, parse nodes, response handlers) are functions of the history
      of calls made to them so far, gathered in a record [Collaborators];
    - the OpenTelemetry calls only write: they are kept as a list of span
      events next to the result. *)

From stdpp Require Import gmap strings list fin_maps pretty.
From Stdlib Require Import ZArith Ascii String.

#[local] Open Scope string_scope.
#[local] Open Scope Z_scope.

(** ** The [str] methods the adapter calls *)

Module PyStr.

(** The double quote and the line feed, by their codes. *)
Definition dquote : ascii := "034"%char.
Definition newline : ascii := "010"%char.

Definition quoted (s : string) : string :=
  String dquote (s +:+ String dquote EmptyString).

Definition is_upper (c : ascii) : bool :=
  let n := N_of_ascii c in ((65 <=? n) && (n <=? 90))%N.

Definition lower_char (c : ascii) : ascii :=
  if is_upper c then ascii_of_N (N_of_ascii c + 32) else c.

(** [s.lower()], which on ASCII text is also [s.casefold()]. *)
Fixpoint lower (s : string) : string :=
  match s with
  | EmptyString => EmptyString
  | String c r => String (lower_char c) (lower r)
  end.

Definition casefold : string -> string := lower.

(** [s.startswith(p)]. *)
Definition startswith (s p : string) : bool := String.prefix p s.

(** [bool(s)]: a string is true when it is not empty. *)
Definition truthy (s : string) : bool :=
  match s with EmptyString => false | String _ _ => true end.

(** [bool(o)] for a string or [None]. *)
Definition option_truthy (o : option string) : bool :=
  match o with Some s => truthy s | None => false end.

(** [s.split(sep)] for a non-empty [sep]: the separators are found from
    left to right and do not overlap. [skip] counts the characters of a
    separator still to be dropped, [cur] is the segment being read. *)
Fixpoint split_from (sep : string) (skip : nat) (cur s : string)
  : list string :=
  match s with
  | EmptyString => [cur]
  | String c r =>
      match skip with
      | S k => split_from sep k cur r
      | O =>
          if String.prefix sep s
          then cur :: split_from sep (Nat.pred (String.length sep)) EmptyString r
          else split_from sep O (cur +:+ String c EmptyString) r
      end
  end.

Definition split (s sep : string) : list string :=
  split_from sep O EmptyString s.

(** [", ".join(l)]. *)
Fixpoint join (sep : string) (l : list string) : string :=
  match l with
  | [] => EmptyString
  | [x] => x
  | x :: r => x +:+ sep +:+ join sep r
  end.

(** The substring before the first occurrence of the character [c], or
    the whole string when [c] does not occur. *)
Fixpoint before_first (c : ascii) (s : string) : string :=
  match s with
  | EmptyString => EmptyString
  | String a r =>
      if Ascii.eqb a c then EmptyString else String a (before_first c r)
  end.

End PyStr.

(** ** The search for the claims pattern

    [re.search(p, s)] for the one pattern the adapter uses: the word
    claims, an equals sign, a double quote, the group [(.+)] and a closing
    double quote. *)

Module Re.
Import PyStr.

(** The literal head of the pattern, up to its opening double quote. *)
Definition claims_open : string := "claims=" +:+ String dquote EmptyString.

(** An equals sign and a double quote: the separator the match is cut at. *)
Definition eq_quote : string := "=" +:+ String dquote EmptyString.

(** The part of [s] a run of [.] can cover: up to the first line feed. *)
Fixpoint line_of (s : string) : string :=
  match s with
  | EmptyString => EmptyString
  | String c r =>
      if Ascii.eqb c newline then EmptyString else String c (line_of r)
  end.

(** The longest prefix of [s] that ends in a double quote. *)
Fixpoint upto_last_quote (s : string) : option string :=
  match s with
  | EmptyString => None
  | String c r =>
      match upto_last_quote r with
      | Some p => Some (String c p)
      | None =>
          if Ascii.eqb c dquote then Some (String c EmptyString) else None
      end
  end.

(** The group and the closing quote at the start of [s], greedy: one
    character that is not a line feed, then as many as possible up to a
    closing double quote. *)
Definition match_body (s : string) : option string :=
  match line_of s with
  | EmptyString => None
  | String c r =>
      match upto_last_quote r with
      | Some p => Some (String c p)
      | None => None
      end
  end.

Fixpoint drop (n : nat) (s : string) : string :=
  match n, s with
  | O, _ => s
  | S _, EmptyString => EmptyString
  | S k, String _ r => drop k r
  end.

(** The whole pattern at the start of [s]; the result is [group()]. *)
Definition match_here (s : string) : option string :=
  if String.prefix claims_open s
  then match match_body (drop (String.length claims_open) s) with
       | Some b => Some (claims_open +:+ b)
       | None => None
       end
  else None.

(** [re.search]: the match at the leftmost position that has one. *)
Fixpoint search_claims (s : string) : option string :=
  match match_here s with
  | Some m => Some m
  | None =>
      match s with
      | EmptyString => None
      | String _ r => search_claims r
      end
  end.

End Re.

(** ** Data: httpx messages, request information, values and exceptions *)

Module Httpx.
Import PyStr.

(** [httpx.Headers]: the (name, value) pairs in order of arrival. *)
Definition Headers : Type := list (string * string).

(** [headers.get(key)]: the names are compared in lower case, and the
    values of a repeated header are joined with a comma and a space. *)
Definition headers_get (hs : Headers) (key : string) : option string :=
  match List.filter (fun kv => String.eqb (lower (fst kv)) (lower key)) hs with
  | [] => None
  | items => Some (join ", " (List.map snd items))
  end.

Record Response : Type := mkResponse {
  status_code : Z;
  headers : Headers;
  content : string;
  http_version : string
}.

(** [response.is_success]: a 2xx status. *)
Definition is_success (r : Response) : bool :=
  (200 <=? status_code r) && (status_code r <=? 299).

End Httpx.

Module Model.
Import PyStr Httpx.

(** Objects of the collaborating libraries are known by a name. *)
Definition ParsableFactory : Type := string.
Definition ResponseHandler : Type := string.
Definition ParseNode : Type := string.

(** [Dict[str, ParsableFactory]]. *)
Abbreviation ErrorMap := (gmap string ParsableFactory).

Record Span : Type := mkSpan {
  span_name : string;
  span_parent : option string
}.

(** Modelled from the spec: the classes of [kiota_http.middleware.options]
    and [kiota_http.observability_options], whose files are not part of
    the sources at hand. The spec describes the option bag as a mapping
    from an option key to a payload of that option's kind, and the
    response handler as an optional override carried by such an option;
    so a [ResponseHandlerOption] holds an optional handler. The entries
    the adapter itself adds to a native request are the observability
    options and the parent span. *)
Inductive RequestOption : Type :=
| ResponseHandlerOption (response_handler : option ResponseHandler)
| ObservabilityOption
| ParentSpanOption (s : Span)
| OtherOption (kind : string).

Inductive Method : Type :=
| GET | POST | PATCH | DELETE | OPTIONS | CONNECT | PUT | TRACE | HEAD.

Definition method_value (m : Method) : string :=
  match m with
  | GET => "GET" | POST => "POST" | PATCH => "PATCH" | DELETE => "DELETE"
  | OPTIONS => "OPTIONS" | CONNECT => "CONNECT" | PUT => "PUT"
  | TRACE => "TRACE" | HEAD => "HEAD"
  end.

(** [kiota_abstractions.RequestInformation], the fields the adapter uses. *)
Record RequestInformation : Type := mkRequestInformation {
  http_method : Method;
  url_template : option string;
  path_parameters : gmap string string;
  query_parameters : gmap string string;
  request_headers : Headers;
  request_content : option string;
  request_options : gmap string RequestOption
}.

(** [httpx.Request] with the [options] attribute the adapter sets on it. *)
Record Request : Type := mkRequest {
  req_method : string;
  req_url : string;
  req_headers : Headers;
  req_content : option string;
  req_options : gmap string RequestOption
}.

(** [kiota_abstractions.api_error.APIError] and its subclasses. *)
Record APIError : Type := mkAPIError {
  error_class_name : string;
  message : string;
  response_status_code : option Z;
  response_headers : option Headers
}.

(** What a send can return. *)
#[warnings="-register-all"]
Inductive Value : Type :=
| VNone
| VStr (s : string)
| VInt (z : Z)
| VFloat (repr : string)
| VBool (b : bool)
| VDatetime (iso : string)
| VBytes (b : string)
| VModel (class_name : string) (state : string)
| VError (e : APIError)
| VList (l : list Value).

(** [isinstance(v, APIError)]. *)
Definition as_api_error (v : Value) : option APIError :=
  match v with VError e => Some e | _ => None end.

Inductive Exn : Type :=
| RequestError (msg : string)
| AttributeError (msg : string)
| ValueError (msg : string)
| TypeError (msg : string)
| KeyError (key : string)
| IndexError (msg : string)
| DeserializationError (msg : string)
| RecursionError
| RaisedAPIError (e : APIError)
| OtherError (class_name msg : string).

Inductive Outcome (A : Type) : Type :=
| Return (a : A)
| Raise (e : Exn).
Arguments Return {A} a.
Arguments Raise {A} e.

(** The methods of a parse node the adapter calls. *)
Inductive NodeMethod : Type :=
| GetObjectValue (factory : option ParsableFactory)
| GetCollectionOfObjectValues (factory : option ParsableFactory)
| GetCollectionOfPrimitiveValues (response_type : string)
| GetStrValue
| GetIntValue
| GetFloatValue
| GetBoolValue
| GetDatetimeValue.

(** The calls made to the collaborators, in order. *)
Inductive IOEvent : Type :=
| Authenticate (request_info : RequestInformation) (context : gmap string string)
| Send (request : Request)
| ParseRoot (content_type payload : string)
| NodeCall (node : ParseNode) (method : NodeMethod)
| Handle (handler : ResponseHandler) (response : Response) (error_map : ErrorMap).

(** The calls made on OpenTelemetry spans; attributes by key. *)
Inductive SpanEvent : Type :=
| SpanStart (s : Span)
| SpanEnd (s : Span)
| SpanAddEvent (s : Span) (name : string)
| SpanSetAttribute (s : Span) (key : string)
| SpanSetAttributes (s : Span) (keys : list string)
| SpanSetStatusError (s : Span)
| SpanRecordException (s : Span) (e : Exn).

(** The collaborators. Those that do I/O see the calls made so far. *)
Record Collaborators : Type := mkCollaborators {
  unquote : string -> string;
  repr_str : string -> string;
  type_repr : Value -> string;
  authenticate_request :
    list IOEvent -> RequestInformation -> gmap string string ->
    Outcome RequestInformation;
  request_url : RequestInformation -> Outcome string;
  urlparse : string -> Outcome unit;
  build_request :
    string -> string -> Headers -> option string -> Outcome Request;
  http_client_send : list IOEvent -> Request -> Outcome Response;
  factory_get_root_parse_node :
    list IOEvent -> string -> string -> Outcome (option ParseNode);
  node_method : list IOEvent -> ParseNode -> NodeMethod -> Outcome Value;
  handle_response_async :
    list IOEvent -> ResponseHandler -> Response -> ErrorMap -> Outcome Value
}.

(** The adapter's own configuration. [recursion_limit] is the depth of
    nested [get_http_response_message] calls the interpreter allows. *)
Record Adapter : Type := mkAdapter {
  base_url : string;
  include_euii_attributes : bool;
  observability_key : string;
  response_handler_key : string;
  recursion_limit : nat
}.

End Model.

(** ** Computations: a history of calls, a result, and span events *)

Module Comp.
Import Model.

Definition M (A : Type) : Type :=
  list IOEvent -> Outcome A * list IOEvent * list SpanEvent.

Definition ret {A} (a : A) : M A := fun h => (Return a, h, []).

Definition raise {A} (e : Exn) : M A := fun h => (Raise e, h, []).

Definition bind {A B} (m : M A) (k : A -> M B) : M B :=
  fun h =>
    match m h with
    | (Return a, h1, s1) =>
        match k a h1 with
        | (r, h2, s2) => (r, h2, (s1 ++ s2)%list)
        end
    | (Raise e, h1, s1) => (Raise e, h1, s1)
    end.

(** [try: m finally: c], for a cleanup [c] that does not raise. *)
Definition finally {A} (m : M A) (c : M unit) : M A :=
  fun h =>
    match m h with
    | (r, h1, s1) =>
        match c h1 with
        | (_, h2, s2) => (r, h2, (s1 ++ s2)%list)
        end
    end.

(** A result or an exception computed without a call. *)
Definition lift {A} (o : Outcome A) : M A := fun h => (o, h, []).

(** A call to a collaborator: it is recorded, and answered from the
    history before it. *)
Definition call {A} (ev : IOEvent) (f : list IOEvent -> Outcome A) : M A :=
  fun h => (f h, (h ++ [ev])%list, []).

Definition emit (ev : SpanEvent) : M unit := fun h => (Return tt, h, [ev]).

Definition outcome {A} (x : Outcome A * list IOEvent * list SpanEvent)
  : Outcome A := fst (fst x).
Definition history {A} (x : Outcome A * list IOEvent * list SpanEvent)
  : list IOEvent := snd (fst x).
Definition spans {A} (x : Outcome A * list IOEvent * list SpanEvent)
  : list SpanEvent := snd x.

(** The part of a run the collaborators can observe. *)
Definition io {A} (x : Outcome A * list IOEvent * list SpanEvent)
  : Outcome A * list IOEvent := fst x.

Declare Scope comp_scope.
Delimit Scope comp_scope with comp.
Notation "x <- m ;; k" := (bind m (fun x => k))
  (at level 100, m at next level, right associativity) : comp_scope.
Notation "m ;; k" := (bind m (fun _ => k))
  (at level 100, right associativity) : comp_scope.

End Comp.

(** ** The adapter *)

Module HttpxRequestAdapter.
Import PyStr Re Httpx Model Comp.
#[local] Open Scope comp_scope.

Definition AUTHENTICATE_CHALLENGED_EVENT_KEY : string :=
  "com.microsoft.kiota.authenticate_challenge_received".
Definition RESPONSE_HANDLER_EVENT_INVOKED_KEY : string :=
  "response_handler_invoked".
Definition ERROR_MAPPING_FOUND_KEY : string :=
  "com.microsoft.kiota.error.mapping_found".
Definition ERROR_BODY_FOUND_KEY : string :=
  "com.microsoft.kiota.error.body_found".
Definition DESERIALIZED_MODEL_NAME_KEY : string :=
  "com.microsoft.kiota.response.type".
Definition REQUEST_IS_NULL : Exn := RequestError "Request info cannot be null".

Definition CLAIMS_KEY : string := "claims".
Definition BEARER_AUTHENTICATION_SCHEME : string := "Bearer".
Definition RESPONSE_AUTH_HEADER : string := "WWW-Authenticate".

(** The message of the generic error, ending in [str(status)]. *)
Definition no_error_class_message (status : Z) : string :=
  "The server returned an unexpected status code and no error class is registered"
  +:+ " for this code " +:+ pretty status.

Definition generic_api_error (msg : string) (status : Z) (hs : Headers)
  : APIError :=
  {| error_class_name := "APIError"; message := msg;
     response_status_code := Some status; response_headers := Some hs |}.

(** [key in d] and [d[key]]. *)
Definition contains {V} (d : gmap string V) (key : string) : bool :=
  match d !! key with Some _ => true | None => false end.

Definition getitem {V} (d : gmap string V) (key : string) : M V :=
  match d !! key with
  | Some v => ret v
  | None => raise (KeyError key)
  end.

(** [l[i]] on a list of strings. *)
Definition index (l : list string) (i : nat) : M string :=
  match l !! i with
  | Some x => ret x
  | None => raise (IndexError "list index out of range")
  end.

Definition none_has_no_attribute (name : string) : Exn :=
  AttributeError ("'NoneType' object has no attribute '" +:+ name +:+ "'").

(** The span operations. *)
Definition start_span (name : string) (parent : option string) : M Span :=
  let s := {| span_name := name; span_parent := parent |} in
  emit (SpanStart s) ;; ret s.
Definition span_end (s : Span) : M unit := emit (SpanEnd s).
Definition add_event (s : Span) (name : string) : M unit :=
  emit (SpanAddEvent s name).
Definition set_attribute (s : Span) (key : string) : M unit :=
  emit (SpanSetAttribute s key).
Definition set_attributes (s : Span) (keys : list string) : M unit :=
  emit (SpanSetAttributes s keys).
Definition set_status_error (s : Span) : M unit := emit (SpanSetStatusError s).
Definition record_exception (s : Span) (e : Exn) : M unit :=
  emit (SpanRecordException s e).

(** [if v := d.get(key): span.set_attribute(attr, v)]. *)
Definition set_attribute_if_header (s : Span) (hs : Headers) (key attr : string)
  : M unit :=
  match headers_get hs key with
  | Some v => if truthy v then set_attribute s attr else ret tt
  | None => ret tt
  end.

Section WithCollaborators.
Variable env : Collaborators.
Variable self : Adapter.

Definition get_response_content_type (response : Response) : option string :=
  match headers_get (headers response) "content-type" with
  | None => None
  | Some header =>
      if truthy header then
        match split (lower header) ";" with
        | [] => None
        | segment :: _ => Some segment
        end
      else None
  end.

Definition start_tracing_span
  (request_info : option RequestInformation) (method : string) : M Span :=
  match request_info with
  | None => raise (none_has_no_attribute "url_template")
  | Some ri =>
      let uri_template :=
        match url_template ri with
        | Some t => if truthy t then t else "UNKNOWN"
        | None => "UNKNOWN"
        end in
      let decoded_uri_template := unquote env uri_template in
      start_span (method +:+ " - " +:+ decoded_uri_template) None
  end.

Definition _start_local_tracing_span (name : string) (parent_span : Span)
  : M Span :=
  start_span name (Some (span_name parent_span)).

Definition _should_return_none (response : Response) : bool :=
  status_code response =? 204.

Definition get_root_parse_node
  (response : Response) (parent_span attribute_span : Span)
  : M (option ParseNode) :=
  span <- _start_local_tracing_span "get_root_parse_node" parent_span ;;
  finally
    (let payload := content response in
     match get_response_content_type response with
     | Some response_content_type =>
         if truthy response_content_type then
           call (ParseRoot response_content_type payload)
             (fun h => factory_get_root_parse_node env h
                         response_content_type payload)
         else
           raise (DeserializationError
                    "No response content type found for deserialization")
     | None =>
         raise (DeserializationError
                  "No response content type found for deserialization")
     end)
    (span_end span).

(** [root_node.m(...)], where [root_node] may be [None]. *)
Definition node_call (root_node : option ParseNode) (attr : string)
  (m : NodeMethod) : M Value :=
  match root_node with
  | None => raise (none_has_no_attribute attr)
  | Some n => call (NodeCall n m) (fun h => node_method env h n m)
  end.

Definition throw_failed_responses
  (response : Response) (error_map : ErrorMap)
  (parent_span attribute_span : Span) : M unit :=
  if is_success response then ret tt
  else
    set_status_error attribute_span ;;
    _throw_failed_resp_span <-
      _start_local_tracing_span "throw_failed_responses" parent_span ;;
    finally
      (let response_status_code := status_code response in
       let response_status_code_str := pretty response_status_code in
       let response_headers := headers response in
       set_attribute _throw_failed_resp_span "status" ;;
       set_attribute _throw_failed_resp_span ERROR_MAPPING_FOUND_KEY ;;
       if bool_decide (error_map = ∅) then
         let exc :=
           RaisedAPIError
             (generic_api_error
                (no_error_class_message response_status_code)
                response_status_code response_headers) in
         set_attribute _throw_failed_resp_span "status_message" ;;
         set_status_error _throw_failed_resp_span ;;
         record_exception attribute_span exc ;;
         raise exc
       else if negb (contains error_map response_status_code_str)
               && (((400 <=? response_status_code)
                    && (response_status_code <? 500)
                    && negb (contains error_map "4XX"))
                   || ((500 <=? response_status_code)
                       && (response_status_code <? 600)
                       && negb (contains error_map "5XX")))
       then
         let exc :=
           RaisedAPIError
             (generic_api_error
                (no_error_class_message response_status_code)
                response_status_code response_headers) in
         record_exception attribute_span exc ;;
         raise exc
       else
         set_attribute _throw_failed_resp_span "status_message" ;;
         error_class <-
           (if contains error_map response_status_code_str then
              f <- getitem error_map response_status_code_str ;; ret (Some f)
            else if (400 <=? response_status_code)
                    && (response_status_code <? 500) then
              f <- getitem error_map "4XX" ;; ret (Some f)
            else if (500 <=? response_status_code)
                    && (response_status_code <? 600) then
              f <- getitem error_map "5XX" ;; ret (Some f)
            else ret None) ;;
         root_node <-
           get_root_parse_node response _throw_failed_resp_span
             _throw_failed_resp_span ;;
         set_attribute attribute_span ERROR_BODY_FOUND_KEY ;;
         _get_obj_span <-
           start_span "get_object_value"
             (Some (span_name _throw_failed_resp_span)) ;;
         error <-
           node_call root_node "get_object_value"
             (GetObjectValue error_class) ;;
         let exc :=
           match as_api_error error with
           | Some e =>
               RaisedAPIError
                 {| error_class_name := error_class_name e;
                    message := message e;
                    response_status_code := Some response_status_code;
                    response_headers := Some response_headers |}
           | None =>
               RaisedAPIError
                 (generic_api_error
                    ("Unexpected error type: " +:+ type_repr env error)
                    response_status_code response_headers)
           end in
         span_end _get_obj_span ;;
         raise exc)
      (span_end _throw_failed_resp_span).

Definition set_base_url_for_request_information
  (request_info : RequestInformation) : RequestInformation :=
  {| http_method := http_method request_info;
     url_template := url_template request_info;
     path_parameters :=
       <["baseurl" := base_url self]> (path_parameters request_info);
     query_parameters := query_parameters request_info;
     request_headers := request_headers request_info;
     request_content := request_content request_info;
     request_options := request_options request_info |}.

Definition get_request_from_request_information
  (request_info : RequestInformation) (parent_span attribute_span : Span)
  : M Request :=
  _get_request_span <-
    _start_local_tracing_span "get_request_from_request_information"
      parent_span ;;
  url <- lift (request_url env request_info) ;;
  lift (urlparse env url) ;;
  let otel_attributes :=
    (["http.method"; "http.port"; "http.host"; "http.scheme";
      "http.uri_template"]
     ++ (if include_euii_attributes self then ["http.uri"] else []))%list in
  request <-
    lift (build_request env (method_value (http_method request_info)) url
            (request_headers request_info) (request_content request_info)) ;;
  let request_options :=
    request_options request_info
    ∪ <["parent_span" := ParentSpanOption parent_span]>
        {[observability_key self := ObservabilityOption]} in
  let request :=
    {| req_method := req_method request; req_url := req_url request;
       req_headers := req_headers request;
       req_content := req_content request;
       req_options := request_options |} in
  let otel_attributes :=
    (otel_attributes
     ++ (if option_truthy (headers_get (req_headers request) "Content-Length")
         then ["http.request_content_length"] else [])
     ++ (if option_truthy (headers_get (req_headers request) "Content-Type")
         then ["http.request_content_type"] else []))%list in
  set_attributes attribute_span otel_attributes ;;
  set_attributes _get_request_span otel_attributes ;;
  span_end _get_request_span ;;
  ret request.

(** The body of [retry_cae_response_if_required], with the call back
    into [get_http_response_message] as [again]. The request
    information is one object the callee changes in place: it is
    returned next to the response. *)
Definition retry_cae_response_if_required_with
  (again : RequestInformation -> Span -> string ->
           M (RequestInformation * Response))
  (resp : Response) (request_info : RequestInformation) (claims : string)
  : M (RequestInformation * Response) :=
  parent_span <-
    start_tracing_span (Some request_info) "retry_cae_response_if_required" ;;
  if (status_code resp =? 401) && negb (truthy claims)
     && option_truthy (headers_get (headers resp) RESPONSE_AUTH_HEADER)
  then
    match headers_get (headers resp) RESPONSE_AUTH_HEADER with
    | None => raise (none_has_no_attribute "casefold")
    | Some auth_header_value =>
        if startswith (casefold auth_header_value)
             (casefold BEARER_AUTHENTICATION_SCHEME)
        then
          match search_claims auth_header_value with
          | None => raise (ValueError "Unable to parse claims from response")
          | Some claims_match =>
              response_claims <-
                index (split claims_match eq_quote) 1 ;;
              add_event parent_span AUTHENTICATE_CHALLENGED_EVENT_KEY ;;
              set_attribute parent_span "http.retry_count" ;;
              again request_info parent_span response_claims
          end
        else ret (request_info, resp)
    end
  else ret (request_info, resp).

Fixpoint get_http_response_message_at (depth : nat)
  (request_info : RequestInformation) (parent_span : Span) (claims : string)
  : M (RequestInformation * Response) :=
  match depth with
  | O => raise RecursionError
  | S depth' =>
      _get_http_resp_span <-
        _start_local_tracing_span "get_http_response_message" parent_span ;;
      let request_info := set_base_url_for_request_information request_info in
      let additional_authentication_context : gmap string string :=
        if truthy claims then {[CLAIMS_KEY := claims]} else ∅ in
      request_info <-
        call (Authenticate request_info additional_authentication_context)
          (fun h => authenticate_request env h request_info
                      additional_authentication_context) ;;
      request <-
        get_request_from_request_information request_info
          _get_http_resp_span parent_span ;;
      resp <- call (Send request) (fun h => http_client_send env h request) ;;
      set_attribute parent_span "http.status_code" ;;
      (if truthy (http_version resp)
       then set_attribute parent_span "http.flavor" else ret tt) ;;
      set_attribute_if_header parent_span (headers resp) "Content-Length"
        "http.response_content_length" ;;
      set_attribute_if_header parent_span (headers resp) "Content-Type"
        "http.response_content_type" ;;
      span_end _get_http_resp_span ;;
      retry_cae_response_if_required_with
        (get_http_response_message_at depth') resp request_info claims
  end.

Definition get_http_response_message
  (request_info : RequestInformation) (parent_span : Span) (claims : string)
  : M (RequestInformation * Response) :=
  get_http_response_message_at (recursion_limit self) request_info
    parent_span claims.

Definition get_response_handler (request_info : RequestInformation)
  : M (option ResponseHandler) :=
  match request_options request_info !! response_handler_key self with
  | Some (ResponseHandlerOption h) => ret h
  | Some _ => raise (AttributeError "object has no attribute 'response_handler'")
  | None => ret None
  end.

Definition send_async
  (request_info : option RequestInformation)
  (parsable_factory : ParsableFactory) (error_map : ErrorMap) : M Value :=
  parent_span <- start_tracing_span request_info "send_async" ;;
  finally
    (match request_info with
     | None =>
         record_exception parent_span REQUEST_IS_NULL ;;
         raise REQUEST_IS_NULL
     | Some request_info =>
         sent <- get_http_response_message request_info parent_span
                   EmptyString ;;
         let request_info := fst sent in
         let response := snd sent in
         response_handler <- get_response_handler request_info ;;
         match response_handler with
         | Some handler =>
             add_event parent_span RESPONSE_HANDLER_EVENT_INVOKED_KEY ;;
             call (Handle handler response error_map)
               (fun h => handle_response_async env h handler response
                           error_map)
         | None =>
             throw_failed_responses response error_map parent_span
               parent_span ;;
             if _should_return_none response then ret VNone
             else
               root_node <-
                 get_root_parse_node response parent_span parent_span ;;
               match root_node with
               | None => ret VNone
               | Some _ =>
                   _deserialized_span <-
                     _start_local_tracing_span "get_object_value"
                       parent_span ;;
                   value <-
                     node_call root_node "get_object_value"
                       (GetObjectValue (Some parsable_factory)) ;;
                   set_attribute parent_span DESERIALIZED_MODEL_NAME_KEY ;;
                   span_end _deserialized_span ;;
                   ret value
               end
         end
     end)
    (span_end parent_span).

Definition send_collection_async
  (request_info : option RequestInformation)
  (parsable_factory : ParsableFactory) (error_map : ErrorMap) : M Value :=
  parent_span <- start_tracing_span request_info "send_collection_async" ;;
  finally
    (match request_info with
     | None =>
         record_exception parent_span REQUEST_IS_NULL ;;
         raise REQUEST_IS_NULL
     | Some request_info =>
         sent <- get_http_response_message request_info parent_span
                   EmptyString ;;
         let request_info := fst sent in
         let response := snd sent in
         response_handler <- get_response_handler request_info ;;
         match response_handler with
         | Some handler =>
             add_event parent_span RESPONSE_HANDLER_EVENT_INVOKED_KEY ;;
             call (Handle handler response error_map)
               (fun h => handle_response_async env h handler response
                           error_map)
         | None =>
             throw_failed_responses response error_map parent_span
               parent_span ;;
             if _should_return_none response then ret VNone
             else
               _deserialized_span <-
                 _start_local_tracing_span "get_collection_of_object_values"
                   parent_span ;;
               root_node <-
                 get_root_parse_node response parent_span parent_span ;;
               result <-
                 node_call root_node "get_collection_of_object_values"
                   (GetCollectionOfObjectValues (Some parsable_factory)) ;;
               set_attribute parent_span DESERIALIZED_MODEL_NAME_KEY ;;
               span_end _deserialized_span ;;
               ret result
         end
     end)
    (span_end parent_span).

Definition send_collection_of_primitive_async
  (request_info : option RequestInformation)
  (response_type : string) (error_map : ErrorMap) : M Value :=
  parent_span <-
    start_tracing_span request_info "send_collection_of_primitive_async" ;;
  finally
    (match request_info with
     | None =>
         record_exception parent_span REQUEST_IS_NULL ;;
         raise REQUEST_IS_NULL
     | Some request_info =>
         sent <- get_http_response_message request_info parent_span
                   EmptyString ;;
         let request_info := fst sent in
         let response := snd sent in
         response_handler <- get_response_handler request_info ;;
         match response_handler with
         | Some handler =>
             add_event parent_span RESPONSE_HANDLER_EVENT_INVOKED_KEY ;;
             call (Handle handler response error_map)
               (fun h => handle_response_async env h handler response
                           error_map)
         | None =>
             throw_failed_responses response error_map parent_span
               parent_span ;;
             if _should_return_none response then ret VNone
             else
               get_root_parse_node response parent_span parent_span ;;
               _deserialized_span <-
                 _start_local_tracing_span
                   "get_collection_of_primitive_values" parent_span ;;
               root_node <-
                 get_root_parse_node response parent_span parent_span ;;
               values <-
                 node_call root_node "get_collection_of_primitive_values"
                   (GetCollectionOfPrimitiveValues response_type) ;;
               set_attribute parent_span DESERIALIZED_MODEL_NAME_KEY ;;
               span_end _deserialized_span ;;
               ret values
         end
     end)
    (span_end parent_span).

(** One of the five [if response_type == t: value = root_node.m()]. *)
Definition read_if (response_type t : string) (root_node : option ParseNode)
  (attr : string) (m : NodeMethod) (value : Value) : M Value :=
  if String.eqb response_type t then node_call root_node attr m
  else ret value.

Definition send_primitive_async
  (request_info : option RequestInformation)
  (response_type : string) (error_map : ErrorMap) : M Value :=
  parent_span <- start_tracing_span request_info "send_primitive_async" ;;
  finally
    (match request_info with
     | None =>
         record_exception parent_span REQUEST_IS_NULL ;;
         raise REQUEST_IS_NULL
     | Some request_info =>
         sent <- get_http_response_message request_info parent_span
                   EmptyString ;;
         let request_info := fst sent in
         let response := snd sent in
         response_handler <- get_response_handler request_info ;;
         match response_handler with
         | Some handler =>
             add_event parent_span RESPONSE_HANDLER_EVENT_INVOKED_KEY ;;
             call (Handle handler response error_map)
               (fun h => handle_response_async env h handler response
                           error_map)
         | None =>
             throw_failed_responses response error_map parent_span
               parent_span ;;
             if _should_return_none response then ret VNone
             else if String.eqb response_type "bytes"
             then ret (VBytes (content response))
             else
               _deserialized_span <-
                 _start_local_tracing_span "get_root_parse_node"
                   parent_span ;;
               root_node <-
                 get_root_parse_node response parent_span parent_span ;;
               let value := VNone in
               value <- read_if response_type "str" root_node
                          "get_str_value" GetStrValue value ;;
               value <- read_if response_type "int" root_node
                          "get_int_value" GetIntValue value ;;
               value <- read_if response_type "float" root_node
                          "get_float_value" GetFloatValue value ;;
               value <- read_if response_type "bool" root_node
                          "get_bool_value" GetBoolValue value ;;
               value <- read_if response_type "datetime" root_node
                          "get_datetime_value" GetDatetimeValue value ;;
               match value with
               | VNone =>
                   let exc :=
                     TypeError ("Unable to deserialize type: "
                                +:+ repr_str env response_type) in
                   record_exception parent_span exc ;;
                   span_end _deserialized_span ;;
                   raise exc
               | _ =>
                   set_attribute parent_span DESERIALIZED_MODEL_NAME_KEY ;;
                   span_end _deserialized_span ;;
                   ret value
               end
         end
     end)
    (span_end parent_span).

Definition send_no_response_content_async
  (request_info : option RequestInformation) (error_map : ErrorMap)
  : M Value :=
  parent_span <-
    start_tracing_span request_info "send_no_response_content_async" ;;
  finally
    (match request_info with
     | None =>
         record_exception parent_span REQUEST_IS_NULL ;;
         raise REQUEST_IS_NULL
     | Some request_info =>
         sent <- get_http_response_message request_info parent_span
                   EmptyString ;;
         let request_info := fst sent in
         let response := snd sent in
         response_handler <- get_response_handler request_info ;;
         match response_handler with
         | Some handler =>
             add_event parent_span RESPONSE_HANDLER_EVENT_INVOKED_KEY ;;
             call (Handle handler response error_map)
               (fun h => handle_response_async env h handler response
                           error_map)
         | None =>
             throw_failed_responses response error_map parent_span
               parent_span ;;
             ret VNone
         end
     end)
    (span_end parent_span).

(** The five public send operations, as one family. *)
Inductive SendVariant : Type :=
| SendObject (parsable_factory : ParsableFactory)
| SendCollection (parsable_factory : ParsableFactory)
| SendCollectionOfPrimitive (response_type : string)
| SendPrimitive (response_type : string)
| SendNoResponseContent.

Definition send_name (v : SendVariant) : string :=
  match v with
  | SendObject _ => "send_async"
  | SendCollection _ => "send_collection_async"
  | SendCollectionOfPrimitive _ => "send_collection_of_primitive_async"
  | SendPrimitive _ => "send_primitive_async"
  | SendNoResponseContent => "send_no_response_content_async"
  end.

Definition send (v : SendVariant)
  (request_info : option RequestInformation) (error_map : ErrorMap)
  : M Value :=
  match v with
  | SendObject f => send_async request_info f error_map
  | SendCollection f => send_collection_async request_info f error_map
  | SendCollectionOfPrimitive t =>
      send_collection_of_primitive_async request_info t error_map
  | SendPrimitive t => send_primitive_async request_info t error_map
  | SendNoResponseContent =>
      send_no_response_content_async request_info error_map
  end.

(** [authenticate_request] is called here without a second argument: the
    provider's default for the additional context is the empty map. *)
Definition convert_to_native_async (request_info : option RequestInformation)
  : M Request :=
  parent_span <- start_tracing_span request_info "convert_to_native_async" ;;
  finally
    (match request_info with
     | None =>
         let exc := ValueError "request information must be provided" in
         record_exception parent_span exc ;;
         raise exc
     | Some request_info =>
         request_info <-
           call (Authenticate request_info ∅)
             (fun h => authenticate_request env h request_info ∅) ;;
         request <-
           get_request_from_request_information request_info parent_span
             parent_span ;;
         ret request
     end)
    (span_end parent_span).

End WithCollaborators.

(** The [base_url] property: the getter, and the setter, which keeps the
    old value when the new one is empty. *)
Definition base_url_getter (self : Adapter) : string := base_url self.

Definition base_url_setter (self : Adapter) (value : string) : Adapter :=
  if truthy value then
    {| base_url := value;
       include_euii_attributes := include_euii_attributes self;
       observability_key := observability_key self;
       response_handler_key := response_handler_key self;
       recursion_limit := recursion_limit self |}
  else self.

End HttpxRequestAdapter.

(** ** Names for the phases of a send *)

Module Phases.
Import PyStr Re Httpx Model Comp HttpxRequestAdapter.
#[local] Open Scope comp_scope.

(** The parent span [start_tracing_span] opens for a request. *)
Definition parent_span_of (env : Collaborators) (method : string)
  (request_info : RequestInformation) : Span :=
  {| span_name :=
       method +:+ " - "
       +:+ unquote env
             (match url_template request_info with
              | Some t => if truthy t then t else "UNKNOWN"
              | None => "UNKNOWN"
              end);
     span_parent := None |}.

(** One authenticate + materialize + dispatch cycle: the body of
    [get_http_response_message] up to its last line, the call of
    [retry_cae_response_if_required]. *)
Definition dispatch_once (env : Collaborators) (self : Adapter)
  (request_info : RequestInformation) (parent_span : Span) (claims : string)
  : M (RequestInformation * Response) :=
  _get_http_resp_span <-
    _start_local_tracing_span "get_http_response_message" parent_span ;;
  let request_info := set_base_url_for_request_information self request_info in
  let additional_authentication_context : gmap string string :=
    if truthy claims then {[CLAIMS_KEY := claims]} else ∅ in
  request_info <-
    call (Authenticate request_info additional_authentication_context)
      (fun h => authenticate_request env h request_info
                  additional_authentication_context) ;;
  request <-
    get_request_from_request_information env self request_info
      _get_http_resp_span parent_span ;;
  resp <- call (Send request) (fun h => http_client_send env h request) ;;
  set_attribute parent_span "http.status_code" ;;
  (if truthy (http_version resp)
   then set_attribute parent_span "http.flavor" else ret tt) ;;
  set_attribute_if_header parent_span (headers resp) "Content-Length"
    "http.response_content_length" ;;
  set_attribute_if_header parent_span (headers resp) "Content-Type"
    "http.response_content_type" ;;
  span_end _get_http_resp_span ;;
  ret (request_info, resp).

(** [response_claims] as [retry_cae_response_if_required] computes it
    from the header value: the second piece of the matched text cut at
    every equals sign followed by a double quote. *)
Definition response_claims_of (auth_header_value : string) : option string :=
  match search_claims auth_header_value with
  | Some claims_match =>
      split claims_match eq_quote !! 1%nat
  | None => None
  end.

(** The text [m] is an occurrence of the claims pattern in [s]: the head
    of the pattern, a body that is not empty and has no line feed, and a
    closing double quote. *)
Definition occurs_in (s m : string) : Prop :=
  exists pre body post,
    s = pre +:+ m +:+ post
    /\ m = claims_open +:+ body +:+ String dquote EmptyString
    /\ body <> EmptyString
    /\ line_of body = body.

(** A header value that opens a Bearer challenge. *)
Definition is_bearer (auth_header_value : string) : bool :=
  startswith (casefold auth_header_value)
    (casefold BEARER_AUTHENTICATION_SCHEME).

(** The primitive kinds [send_primitive_async] reads through the parse
    node. *)
Definition known_primitive (response_type : string) : bool :=
  String.eqb response_type "str" || String.eqb response_type "int"
  || String.eqb response_type "float" || String.eqb response_type "bool"
  || String.eqb response_type "datetime".

(** The exception failure resolution raises when no error class is
    registered for the status of [response]. *)
Definition no_error_class_registered (response : Response) : Exn :=
  RaisedAPIError
    (generic_api_error
       ("The server returned an unexpected status code and no error class is registered for this code "
        +:+ pretty (status_code response))
       (status_code response) (headers response)).

(** The error map lookup in the words of the spec: the exact status code,
    else the class wildcard of the status's hundred-range, else nothing. *)
Definition registered_error_class (status : Z) (error_map : ErrorMap)
  : option ParsableFactory :=
  match error_map !! pretty status with
  | Some f => Some f
  | None =>
      if (400 <=? status) && (status <? 500) then error_map !! "4XX"
      else if (500 <=? status) && (status <? 600) then error_map !! "5XX"
      else None
  end.

(** What the collaborators see of the last part of
    [throw_failed_responses], from [get_root_parse_node] to [raise exc],
    for the error class resolved before it: the body goes to the parse
    node factory under the resolved content type, the root node is asked
    for an object of [error_class], and what comes back is raised. *)
Definition error_materialization (env : Collaborators) (response : Response)
  (error_class : option ParsableFactory) (h : list IOEvent)
  : Outcome unit * list IOEvent :=
  match get_response_content_type response with
  | Some content_type =>
      if truthy content_type then
        let h1 := (h ++ [ParseRoot content_type (content response)])%list in
        match factory_get_root_parse_node env h content_type
                (content response) with
        | Return (Some node) =>
            let h2 :=
              (h1 ++ [NodeCall node (GetObjectValue error_class)])%list in
            match node_method env h1 node (GetObjectValue error_class) with
            | Return error =>
                (Raise
                   (RaisedAPIError
                      match as_api_error error with
                      | Some e =>
                          {| error_class_name := error_class_name e;
                             message := message e;
                             response_status_code :=
                               Some (status_code response);
                             response_headers := Some (headers response) |}
                      | None =>
                          generic_api_error
                            ("Unexpected error type: "
                             +:+ type_repr env error)
                            (status_code response) (headers response)
                      end), h2)
            | Raise e => (Raise e, h2)
            end
        | Return None =>
            (Raise (none_has_no_attribute "get_object_value"), h1)
        | Raise e => (Raise e, h1)
        end
      else
        (Raise (DeserializationError
                  "No response content type found for deserialization"), h)
  | None =>
      (Raise (DeserializationError
                "No response content type found for deserialization"), h)
  end.

End Phases.

(** ** A concrete setting to run the adapter in *)

Module Scenario.
Import PyStr Re Httpx Model Comp HttpxRequestAdapter.

(** The number of requests sent so far. *)
Definition sends (h : list IOEvent) : nat :=
  List.length
    (List.filter (fun ev => match ev with Send _ => true | _ => false end) h).

(** The authentication contexts the provider was called with, in order. *)
Fixpoint authentication_contexts (h : list IOEvent)
  : list (gmap string string) :=
  match h with
  | [] => []
  | Authenticate _ ctx :: r => ctx :: authentication_contexts r
  | _ :: r => authentication_contexts r
  end.

(** A server that answers the n-th request with the n-th response of
    [script], and goes on with [last] once the script is used up; an
    authentication provider that accepts every request as it is; a JSON
    parse node factory whose nodes materialize what they are asked for. *)
Definition scripted (script : list Response) (last : Response) : Collaborators :=
  {| unquote := fun s => s;
     repr_str := fun s => "'" +:+ s +:+ "'";
     type_repr := fun _ => "<class 'object'>";
     authenticate_request := fun _ ri _ => Return ri;
     request_url := fun _ => Return "https://graph.example.org/v1/users";
     urlparse := fun _ => Return tt;
     build_request := fun m u hs c =>
       Return {| req_method := m; req_url := u; req_headers := hs;
                 req_content := c; req_options := ∅ |};
     http_client_send := fun h _ => Return (nth (sends h) script last);
     factory_get_root_parse_node := fun _ ct payload =>
       if String.eqb ct "application/json" then Return (Some payload)
       else Raise (OtherError "KeyError" ct);
     node_method := fun _ n m =>
       match m with
       | GetObjectValue (Some f) => Return (VModel f n)
       | GetObjectValue None =>
           Raise (none_has_no_attribute "create_from_discriminator_value")
       | GetCollectionOfObjectValues _ => Return (VList [])
       | GetCollectionOfPrimitiveValues _ => Return (VList [])
       | GetStrValue => Return (VStr n)
       | GetIntValue => Return (VInt 0)
       | GetFloatValue => Return (VFloat n)
       | GetBoolValue => Return (VBool true)
       | GetDatetimeValue => Return (VDatetime n)
       end;
     handle_response_async := fun _ handler _ _ => Return (VStr handler) |}.

Definition adapter : Adapter :=
  {| base_url := "https://graph.example.org/v1";
     include_euii_attributes := false;
     observability_key := "ObservabilityOptionKey";
     response_handler_key := "ResponseHandlerOptionKey";
     recursion_limit := 1000 |}.

Definition users_request : RequestInformation :=
  {| http_method := GET;
     url_template := Some "{+baseurl}/users";
     path_parameters := ∅;
     query_parameters := ∅;
     request_headers := [];
     request_content := None;
     request_options := ∅ |}.

Definition with_handler (handler : ResponseHandler) : RequestInformation :=
  {| http_method := GET;
     url_template := Some "{+baseurl}/users";
     path_parameters := ∅;
     query_parameters := ∅;
     request_headers := [];
     request_content := None;
     request_options :=
       {[response_handler_key adapter
           := ResponseHandlerOption (Some handler)]} |}.

Definition response (status : Z) (hs : Headers) (body : string) : Response :=
  {| status_code := status; headers := hs; content := body;
     http_version := "HTTP/1.1" |}.

(** The challenge of the spec's example: the scheme Bearer, a realm, and
    a claims component in double quotes. *)
Definition claims_value : string := "eyAiY2xhaW1zIjogIngiIH0=".

Definition challenge (value : string) : string :=
  "Bearer realm=" +:+ quoted "x" +:+ ", claims=" +:+ quoted value.

Definition challenged (value : string) : Response :=
  response 401 [("WWW-Authenticate", challenge value)] EmptyString.

Definition basic_challenged : Response :=
  response 401 [("WWW-Authenticate", "Basic realm=" +:+ quoted "x")]
    EmptyString.

Definition bearer_without_claims : Response :=
  response 401 [("WWW-Authenticate", "Bearer realm=" +:+ quoted "x")]
    EmptyString.

(** A Bearer challenge whose claims component is empty and is followed
    by another parameter in double quotes. *)
Definition empty_claims_challenged : Response :=
  response 401
    [("WWW-Authenticate",
      "Bearer claims=" +:+ quoted EmptyString +:+ ", error=" +:+ quoted "x")]
    EmptyString.

Definition ok_json : Response :=
  response 200 [("Content-Type", "application/json")] "{}".

Definition no_content : Response :=
  response 204 [("Content-Type", "application/json")] "{}".

Definition found_elsewhere : Response := response 302 [] EmptyString.

Definition server_error : Response :=
  response 500 [("Content-Type", "application/json")] "{}".

Definition moved_json : Response :=
  response 302 [("Content-Type", "application/json")] "{}".

Definition a_span : Span := {| span_name := "send_async"; span_parent := None |}.

Definition not_found_only : ErrorMap := {["404" := "NotFoundError"]}.

(** The error map of the spec's example: an exact code and its class. *)
Definition exact_and_class : ErrorMap := <["404" := "F1"]> {["4XX" := "F2"]}.

(** What one dispatch cycle of a send named [method] shows the
    collaborators for the request [ri]: the request information with the
    base URL set, and the native request built from it. *)
Definition based (ri : RequestInformation) : RequestInformation :=
  set_base_url_for_request_information adapter ri.

Definition dispatch_span (parent : string) : Span :=
  {| span_name := "get_http_response_message";
     span_parent := Some (parent +:+ " - {+baseurl}/users") |}.

Definition native_request (ri : RequestInformation) (parent : string)
  : Request :=
  {| req_method := "GET";
     req_url := "https://graph.example.org/v1/users";
     req_headers := [];
     req_content := None;
     req_options :=
       request_options ri
       ∪ <["parent_span" := ParentSpanOption (dispatch_span parent)]>
           {[observability_key adapter := ObservabilityOption]} |}.

Definition cycle (ri : RequestInformation) (parent : string)
  (context : gmap string string) : list IOEvent :=
  [Authenticate (based ri) context; Send (native_request ri parent)].

(** The scripted collaborators with an authentication provider that
    refuses every request. *)
Definition refusing (script : list Response) (last : Response) : Collaborators :=
  let env := scripted script last in
  {| unquote := unquote env;
     repr_str := repr_str env;
     type_repr := type_repr env;
     authenticate_request := fun _ _ _ =>
       Raise (OtherError "AuthenticationError" "no token");
     request_url := request_url env;
     urlparse := urlparse env;
     build_request := build_request env;
     http_client_send := http_client_send env;
     factory_get_root_parse_node := factory_get_root_parse_node env;
     node_method := node_method env;
     handle_response_async := handle_response_async env |}.

(** The scripted collaborators with parse nodes that materialize an error
    object of the class asked for, carrying no status and no headers yet,
    and that read a string value as null. *)
Definition erring (script : list Response) (last : Response) : Collaborators :=
  let env := scripted script last in
  {| unquote := unquote env;
     repr_str := repr_str env;
     type_repr := type_repr env;
     authenticate_request := authenticate_request env;
     request_url := request_url env;
     urlparse := urlparse env;
     build_request := build_request env;
     http_client_send := http_client_send env;
     factory_get_root_parse_node := factory_get_root_parse_node env;
     node_method := fun h n m =>
       match m with
       | GetObjectValue (Some f) =>
           Return (VError {| error_class_name := f; message := n;
                             response_status_code := None;
                             response_headers := None |})
       | GetStrValue => Return VNone
       | _ => node_method env h n m
       end;
     handle_response_async := handle_response_async env |}.

(** The scripted collaborators with a parse node factory that finds no
    root node. *)
Definition rootless (script : list Response) (last : Response) : Collaborators :=
  let env := scripted script last in
  {| unquote := unquote env;
     repr_str := repr_str env;
     type_repr := type_repr env;
     authenticate_request := authenticate_request env;
     request_url := request_url env;
     urlparse := urlparse env;
     build_request := build_request env;
     http_client_send := http_client_send env;
     factory_get_root_parse_node := fun _ _ _ => Return None;
     node_method := node_method env;
     handle_response_async := handle_response_async env |}.

Definition not_found : Response :=
  response 404 [("Content-Type", "application/json; charset=utf-8")]
    "{}".

Definition unauthorized : Response := response 401 [] EmptyString.

Definition ok_text : Response :=
  response 200 [("Content-Type", "text/plain")] "hello".

Definition ok_untyped : Response := response 200 [] "hello".

Definition parameters_only : Response :=
  response 200 [("Content-Type", ";charset=utf-8")] "{}".

Definition moved_registered : ErrorMap := {["302" := "Moved"]}.

(** The parent span of a send named [method] for [users_request]. *)
Definition span_of (method : string) : Span :=
  {| span_name := method +:+ " - {+baseurl}/users"; span_parent := None |}.

(** The same adapter under a smaller recursion limit. *)
Definition adapter_with_limit (n : nat) : Adapter :=
  {| base_url := base_url adapter;
     include_euii_attributes := include_euii_attributes adapter;
     observability_key := observability_key adapter;
     response_handler_key := response_handler_key adapter;
     recursion_limit := n |}.

End Scenario.

(** * Properties *)

(** ** Computations *)

Module CompFacts.
Import Model Comp.
#[local] Open Scope comp_scope.

Lemma io_ret {A} (a : A) h : io (ret a h) = (Return a, h).
Proof. reflexivity. Qed.

Lemma io_raise {A} e h : io (@raise A e h) = (Raise e, h).
Proof. reflexivity. Qed.

Lemma io_lift {A} (o : Outcome A) h : io (lift o h) = (o, h).
Proof. reflexivity. Qed.

Lemma io_emit ev h : io (emit ev h) = (Return tt, h).
Proof. reflexivity. Qed.

Lemma io_call {A} ev (f : list IOEvent -> Outcome A) h :
  io (call ev f h) = (f h, (h ++ [ev])%list).
Proof. reflexivity. Qed.

Lemma io_bind {A B} (m : M A) (k : A -> M B) h :
  io (bind m k h) =
  match io (m h) with
  | (Return a, h1) => io (k a h1)
  | (Raise e, h1) => (Raise e, h1)
  end.
Proof.
  unfold io, bind. destruct (m h) as [[[a|e] h1] s1]; simpl; [|reflexivity].
  destruct (k a h1) as [[r h2] s2]. reflexivity.
Qed.

(** A cleanup that only writes to a span is invisible to the
    collaborators. *)
Lemma io_finally_emit {A} (m : M A) ev h :
  io (finally m (emit ev) h) = io (m h).
Proof.
  unfold io, finally. destruct (m h) as [[r h1] s1]. reflexivity.
Qed.

Lemma io_bind_emit {B} ev (k : unit -> M B) h :
  io (bind (emit ev) k h) = io (k tt h).
Proof. rewrite io_bind, io_emit. reflexivity. Qed.

Lemma io_bind_ret {A B} (a : A) (k : A -> M B) h :
  io (bind (ret a) k h) = io (k a h).
Proof. rewrite io_bind, io_ret. reflexivity. Qed.

Lemma io_bind_raise {A B} e (k : A -> M B) h :
  io (bind (raise e) k h) = (Raise e, h).
Proof. rewrite io_bind, io_raise. reflexivity. Qed.

Lemma io_bind_lift {A B} (o : Outcome A) (k : A -> M B) h :
  io (bind (lift o) k h) =
  match o with Return a => io (k a h) | Raise e => (Raise e, h) end.
Proof. rewrite io_bind, io_lift. reflexivity. Qed.

Lemma io_bind_call {A B} ev (f : list IOEvent -> Outcome A) (k : A -> M B) h :
  io (bind (call ev f) k h) =
  match f h with
  | Return a => io (k a (h ++ [ev])%list)
  | Raise e => (Raise e, (h ++ [ev])%list)
  end.
Proof. rewrite io_bind, io_call. reflexivity. Qed.

Lemma io_bind_assoc {A B C} (m : M A) (k : A -> M B) (k' : B -> M C) h :
  io (bind (bind m k) k' h) = io (bind m (fun a => bind (k a) k') h).
Proof.
  rewrite !io_bind. destruct (io (m h)) as [[a|e] h1]; [|reflexivity].
  rewrite io_bind. reflexivity.
Qed.

Lemma outcome_io {A} (x : Outcome A * list IOEvent * list SpanEvent) :
  outcome x = fst (io x).
Proof. reflexivity. Qed.

Lemma history_io {A} (x : Outcome A * list IOEvent * list SpanEvent) :
  history x = snd (io x).
Proof. reflexivity. Qed.

End CompFacts.

(** ** Strings *)

Module PyStrFacts.
Import PyStr.

Lemma app_nil_l (s : string) : EmptyString +:+ s = s.
Proof. reflexivity. Qed.

Lemma app_cons c (a b : string) : String c a +:+ b = String c (a +:+ b).
Proof. reflexivity. Qed.

Lemma app_nil_r (a : string) : a +:+ EmptyString = a.
Proof. induction a as [|x a IH]; [reflexivity|]. now rewrite app_cons, IH. Qed.

Lemma app_assoc (a b c : string) : (a +:+ b) +:+ c = a +:+ (b +:+ c).
Proof.
  induction a as [|x a IH]; [reflexivity|]. now rewrite !app_cons, IH.
Qed.

Lemma prefix_nil s : String.prefix EmptyString s = true.
Proof. destruct s; reflexivity. Qed.

Lemma prefix_cons a p b s :
  String.prefix (String a p) (String b s) = Ascii.eqb a b && String.prefix p s.
Proof.
  cbn [String.prefix]. destruct (ascii_dec a b) as [->|Hne].
  - now rewrite Ascii.eqb_refl.
  - apply Ascii.eqb_neq in Hne. now rewrite Hne.
Qed.

Lemma prefix_semicolon c r : String.prefix ";" (String c r) = Ascii.eqb c ";".
Proof.
  rewrite prefix_cons, prefix_nil, andb_true_r. apply Ascii.eqb_sym.
Qed.

(** The first piece of a split at semicolons is what precedes the first
    semicolon. *)
Lemma split_semicolon_head s : forall cur,
  head (split_from ";" 0 cur s) = Some (cur +:+ before_first ";" s).
Proof.
  induction s as [|c r IH]; intros cur.
  - simpl. now rewrite app_nil_r.
  - cbn [split_from before_first]. rewrite prefix_semicolon.
    destruct (Ascii.eqb c ";").
    + simpl. now rewrite app_nil_r.
    + rewrite IH, app_assoc. reflexivity.
Qed.

Lemma lower_char_semicolon c :
  Ascii.eqb (lower_char c) ";" = Ascii.eqb c ";".
Proof. destruct c as [[] [] [] [] [] [] [] []]; reflexivity. Qed.

Lemma lower_before_first s :
  before_first ";" (lower s) = lower (before_first ";" s).
Proof.
  induction s as [|c r IH]; [reflexivity|].
  simpl. rewrite lower_char_semicolon.
  destruct (Ascii.eqb c ";"); simpl; congruence.
Qed.

Lemma before_first_app s p :
  before_first ";" (s +:+ ";" +:+ p) = before_first ";" s.
Proof.
  induction s as [|c r IH]; [reflexivity|].
  rewrite app_cons. simpl. destruct (Ascii.eqb c ";"); congruence.
Qed.

Lemma split_lower_first h :
  head (split (lower h) ";") = Some (lower (before_first ";" h)).
Proof.
  unfold split. rewrite split_semicolon_head. simpl.
  now rewrite lower_before_first.
Qed.

(** A split has at least one piece. *)
Lemma split_from_head sep s : forall skip cur,
  exists x, head (split_from sep skip cur s) = Some x.
Proof.
  induction s as [|c r IH]; intros skip cur; cbn [split_from].
  - eexists; reflexivity.
  - destruct skip as [|k]; [|apply IH].
    destruct (String.prefix sep (String c r)); [eexists; reflexivity|apply IH].
Qed.

End PyStrFacts.

(** ** Content-type resolution *)

Module ContentType.
Import PyStr Httpx Model HttpxRequestAdapter Scenario PyStrFacts.

Lemma headers_get_single k v key :
  headers_get [(k, v)] key =
  if String.eqb (lower k) (lower key) then Some v else None.
Proof.
  unfold headers_get. cbn [List.filter fst].
  destruct (String.eqb (lower k) (lower key)); reflexivity.
Qed.

Lemma get_response_content_type_spec (r : Response) :
  get_response_content_type r =
  match headers_get (headers r) "content-type" with
  | Some (String c s) => Some (lower (before_first ";" (String c s)))
  | _ => None
  end.
Proof.
  unfold get_response_content_type.
  destruct (headers_get (headers r) "content-type") as [[|c s]|];
    try reflexivity.
  cbn [truthy].
  pose proof (split_lower_first (String c s)) as H.
  destruct (split (lower (String c s)) ";"); cbn [head] in H; congruence.
Qed.

(** C9: for every response, the content type is the part of the
    Content-Type header value before its first semicolon, in lower case,
    and there is none when the header is absent (or its value empty); so
    a value with parameters resolves like its bare form, and the value
    [application/json; odata.metadata=minimal] resolves to
    [application/json]. *)
Theorem content_type_resolution :
  (forall r : Response,
     get_response_content_type r =
     match headers_get (headers r) "content-type" with
     | Some (String c s) => Some (lower (before_first ";" (String c s)))
     | _ => None
     end)
  /\ (forall st c s params body ver,
        get_response_content_type
          (mkResponse st [("Content-Type", String c s +:+ ";" +:+ params)]
             body ver)
        = get_response_content_type
            (mkResponse st [("Content-Type", String c s)] body ver))
  /\ get_response_content_type
       (response 200
          [("Content-Type", "application/json; odata.metadata=minimal")]
          EmptyString)
     = Some "application/json".
Proof.
  split; [exact get_response_content_type_spec|split; [|reflexivity]].
  intros. rewrite !get_response_content_type_spec.
  cbn [headers]. rewrite !headers_get_single.
  change (String.eqb (lower "Content-Type") (lower "content-type")) with true.
  cbv iota. rewrite app_cons, <- app_cons, before_first_app. reflexivity.
Qed.

End ContentType.

(** ** Rewriting a run to what the collaborators see *)

Create Rewrite HintDb io.
#[export] Hint Rewrite @CompFacts.io_bind_emit @CompFacts.io_bind_ret
  @CompFacts.io_bind_raise @CompFacts.io_bind_lift @CompFacts.io_bind_call
  @CompFacts.io_bind_assoc @CompFacts.io_finally_emit @CompFacts.io_ret
  @CompFacts.io_raise @CompFacts.io_emit @CompFacts.io_call @CompFacts.io_lift
  : io.

(** Span operations are writes; the rest is rewritten to what the
    collaborators see. *)
Ltac io_simpl :=
  unfold HttpxRequestAdapter._start_local_tracing_span,
    HttpxRequestAdapter.start_span, HttpxRequestAdapter.span_end,
    HttpxRequestAdapter.add_event, HttpxRequestAdapter.set_attribute,
    HttpxRequestAdapter.set_attributes, HttpxRequestAdapter.set_status_error,
    HttpxRequestAdapter.record_exception;
  autorewrite with io; cbv beta zeta.

(** ** Failure resolution *)

Module FailureResolution.
Import PyStr Httpx Model Comp HttpxRequestAdapter Phases Scenario CompFacts.
#[local] Open Scope comp_scope.

Lemma is_success_iff r : is_success r = true <-> 200 <= status_code r < 300.
Proof. unfold is_success. lia. Qed.

Lemma is_success_false r :
  is_success r = false <-> ~ (200 <= status_code r < 300).
Proof. unfold is_success. lia. Qed.

Lemma io_get_root_parse_node env r ps ats h :
  io (get_root_parse_node env r ps ats h) =
  match get_response_content_type r with
  | Some ct =>
      if truthy ct then
        (factory_get_root_parse_node env h ct (content r),
         (h ++ [ParseRoot ct (content r)])%list)
      else (Raise (DeserializationError
                     "No response content type found for deserialization"), h)
  | None => (Raise (DeserializationError
                      "No response content type found for deserialization"), h)
  end.
Proof.
  unfold get_root_parse_node. io_simpl.
  destruct (get_response_content_type r) as [ct|]; [|reflexivity].
  destruct (truthy ct); reflexivity.
Qed.

(** The last part of [throw_failed_responses], from the parse of the
    body on, against [error_materialization]. *)
Ltac io_materialize :=
  lazymatch goal with
  | |- io (bind ?m ?k ?h) = _ => rewrite (io_bind m k h)
  end;
  rewrite io_get_root_parse_node; unfold error_materialization;
  destruct (get_response_content_type _) as [?ct|]; [|reflexivity];
  destruct (truthy _); [|reflexivity];
  destruct (factory_get_root_parse_node _ _ _ _) as [[?n|]|?e];
    [| reflexivity | reflexivity];
  io_simpl; unfold node_call; io_simpl;
  destruct (node_method _ _ _ _) as [?v|?e]; [|reflexivity];
  io_simpl; destruct (as_api_error _); reflexivity.

(** On a 4xx or 5xx status the code looks the error class up as the spec
    says: exact code, else class wildcard, else the generic error. *)
Lemma io_throw_failed_responses_4xx_5xx env r em ps ats h :
  400 <= status_code r < 600 ->
  io (throw_failed_responses env r em ps ats h) =
  match registered_error_class (status_code r) em with
  | Some f => error_materialization env r (Some f) h
  | None => (Raise (no_error_class_registered r), h)
  end.
Proof.
  intros Hrange. unfold throw_failed_responses, registered_error_class.
  assert (is_success r = false) as -> by (apply is_success_false; lia).
  io_simpl. case_bool_decide as Hem.
  - subst em. rewrite !lookup_empty.
    destruct ((400 <=? status_code r) && (status_code r <? 500));
      [|destruct ((500 <=? status_code r) && (status_code r <? 600))];
      reflexivity.
  - unfold contains, getitem.
    destruct (em !! pretty (status_code r)) as [f|] eqn:Hexact.
    + cbn [negb andb]. io_simpl. io_materialize.
    + cbn [negb andb].
      destruct ((400 <=? status_code r) && (status_code r <? 500)) eqn:H4.
      * replace ((500 <=? status_code r) && (status_code r <? 600))
          with false by lia.
        destruct (em !! "4XX") as [f|] eqn:H4XX; cbn [negb andb orb].
        -- io_simpl. io_materialize.
        -- io_simpl. reflexivity.
      * replace ((500 <=? status_code r) && (status_code r <? 600))
          with true by lia.
        destruct (em !! "5XX") as [f|] eqn:H5XX; cbn [negb andb orb].
        -- io_simpl. io_materialize.
        -- io_simpl. reflexivity.
Qed.

(** On a failed status outside both ranges, a map that is not empty and
    has no entry for the exact code passes the guard, and no error class
    is chosen. *)
Lemma io_throw_failed_responses_elsewhere env r em ps ats h :
  is_success r = false ->
  ~ (400 <= status_code r < 600) ->
  em <> ∅ ->
  em !! pretty (status_code r) = None ->
  io (throw_failed_responses env r em ps ats h) =
  error_materialization env r None h.
Proof.
  intros Hfail Hrange Hem Hexact. unfold throw_failed_responses.
  rewrite Hfail. io_simpl. rewrite bool_decide_eq_false_2 by exact Hem.
  unfold contains, getitem. rewrite Hexact.
  replace ((400 <=? status_code r) && (status_code r <? 500))
    with false by lia.
  replace ((500 <=? status_code r) && (status_code r <? 600))
    with false by lia.
  cbn [negb andb orb]. io_simpl. io_materialize.
Qed.

(** With an empty map every failed status gets the generic error. *)
Lemma io_throw_failed_responses_empty env r ps ats h :
  is_success r = false ->
  io (throw_failed_responses env r ∅ ps ats h) =
  (Raise (no_error_class_registered r), h).
Proof.
  intros Hfail. unfold throw_failed_responses. rewrite Hfail.
  rewrite bool_decide_eq_true_2 by reflexivity. reflexivity.
Qed.

Lemma throw_failed_responses_success env r (em : ErrorMap) ps ats h :
  is_success r = true ->
  throw_failed_responses env r em ps ats h = (Return tt, h, []).
Proof.
  intros H. unfold throw_failed_responses. rewrite H. reflexivity.
Qed.

(** C8: for every response with a status in [200,300) and every error
    map, failure resolution returns at once: nothing is raised, no
    collaborator is called (the error map and the body are not read) and
    no span is written. *)
Theorem throw_failed_responses_success_noop env r (em : ErrorMap) ps ats h :
  200 <= status_code r < 300 ->
  throw_failed_responses env r em ps ats h = (Return tt, h, []).
Proof.
  intros H. apply throw_failed_responses_success. now apply is_success_iff.
Qed.

Lemma throw_failed_responses_success_noop_witness :
  200 <= status_code ok_json < 300
  /\ throw_failed_responses (scripted [] ok_json) ok_json
       (<["200" := "Wrong"]> {["2XX" := "Wrong"]}) a_span a_span []
     = (Return tt, [], []).
Proof.
  split; [simpl; lia|].
  apply throw_failed_responses_success_noop. simpl. lia.
Defined.

(** C6: for every response with a status in [400,600) and the empty
    error map, failure resolution raises the generic [APIError] that
    carries the status code and the headers of the response, with the
    message that no error class is registered for this code. *)
Theorem throw_failed_responses_empty_error_map env r ps ats h :
  400 <= status_code r < 600 ->
  io (throw_failed_responses env r ∅ ps ats h) =
  (Raise
     (RaisedAPIError
        {| error_class_name := "APIError";
           message :=
             "The server returned an unexpected status code and no error class is registered for this code "
             +:+ pretty (status_code r);
           response_status_code := Some (status_code r);
           response_headers := Some (headers r) |}), h).
Proof.
  intros H. apply io_throw_failed_responses_empty.
  apply is_success_false. lia.
Qed.

Lemma throw_failed_responses_empty_error_map_witness :
  400 <= status_code server_error < 600
  /\ io (throw_failed_responses (scripted [] ok_json) server_error ∅
           a_span a_span [])
     = (Raise
          (RaisedAPIError
             {| error_class_name := "APIError";
                message :=
                  "The server returned an unexpected status code and no error class is registered for this code 500";
                response_status_code := Some 500;
                response_headers :=
                  Some [("Content-Type", "application/json")] |}), []).
Proof.
  split; [simpl; lia|].
  apply (throw_failed_responses_empty_error_map (scripted [] ok_json)
           server_error a_span a_span []).
  simpl. lia.
Defined.

(** C10, as the code has it: for every failed response whose status lies
    outside [400,500) and [500,600) and whose Content-Type header value is
    not empty before its first semicolon, and every error map that is not
    empty and has no entry for the exact status, failure resolution does
    not stop at the missing registration with the generic error: the error
    class is [None], the body is handed to the parse node factory, and when
    that yields a root node the node is asked for an object of the class
    [None]; what these calls yield or raise is raised. *)
Theorem failed_elsewhere_parses_with_none env r (em : ErrorMap) ps ats h v :
  ~ (200 <= status_code r < 300) ->
  ~ (400 <= status_code r < 600) ->
  em <> ∅ ->
  em !! pretty (status_code r) = None ->
  headers_get (headers r) "content-type" = Some v ->
  before_first ";" v <> EmptyString ->
  io (throw_failed_responses env r em ps ats h) =
  let content_type := lower (before_first ";" v) in
  let h1 := (h ++ [ParseRoot content_type (content r)])%list in
  match factory_get_root_parse_node env h content_type (content r) with
  | Return (Some node) =>
      (match node_method env h1 node (GetObjectValue None) with
       | Return error =>
           Raise
             (RaisedAPIError
                match as_api_error error with
                | Some e =>
                    {| error_class_name := error_class_name e;
                       message := message e;
                       response_status_code := Some (status_code r);
                       response_headers := Some (headers r) |}
                | None =>
                    generic_api_error
                      ("Unexpected error type: " +:+ type_repr env error)
                      (status_code r) (headers r)
                end)
       | Raise e => Raise e
       end,
       (h1 ++ [NodeCall node (GetObjectValue None)])%list)
  | Return None => (Raise (none_has_no_attribute "get_object_value"), h1)
  | Raise e => (Raise e, h1)
  end.
Proof.
  intros Hfail Hrange Hem Hexact Hv Hne.
  rewrite io_throw_failed_responses_elsewhere;
    [| now apply is_success_false | assumption | assumption | assumption].
  unfold error_materialization.
  rewrite ContentType.get_response_content_type_spec, Hv.
  destruct v as [|c s]; [contradiction|].
  destruct (before_first ";" (String c s)) as [|c' s'] eqn:Hb; [contradiction|].
  cbn [lower truthy]. cbv zeta.
  destruct (factory_get_root_parse_node env h _ (content r)) as [[node|]|e];
    [| reflexivity | reflexivity].
  destruct (node_method env _ node (GetObjectValue None)); reflexivity.
Qed.

Lemma failed_elsewhere_parses_with_none_witness :
  ~ (200 <= status_code moved_json < 300)
  /\ ~ (400 <= status_code moved_json < 600)
  /\ not_found_only <> ∅
  /\ not_found_only !! pretty (status_code moved_json) = None
  /\ headers_get (headers moved_json) "content-type" = Some "application/json"
  /\ before_first ";" "application/json" <> EmptyString
  /\ io (throw_failed_responses (scripted [] ok_json) moved_json not_found_only
           a_span a_span [])
     = (Raise (none_has_no_attribute "create_from_discriminator_value"),
        [ParseRoot "application/json" "{}";
         NodeCall "{}" (GetObjectValue None)]).
Proof.
  assert (H1 : ~ (200 <= status_code moved_json < 300)) by (simpl; lia).
  assert (H2 : ~ (400 <= status_code moved_json < 600)) by (simpl; lia).
  assert (H3 : not_found_only <> ∅) by (vm_compute; discriminate).
  assert (H4 : not_found_only !! pretty (status_code moved_json) = None)
    by (vm_compute; reflexivity).
  assert (H5 : headers_get (headers moved_json) "content-type"
               = Some "application/json") by (vm_compute; reflexivity).
  assert (H6 : before_first ";" "application/json" <> EmptyString)
    by (vm_compute; discriminate).
  split; [exact H1|]. split; [exact H2|]. split; [exact H3|].
  split; [exact H4|]. split; [exact H5|]. split; [exact H6|].
  exact (failed_elsewhere_parses_with_none (scripted [] ok_json) moved_json
           not_found_only a_span a_span [] _ H1 H2 H3 H4 H5 H6).
Defined.

(** A 302 without a Content-Type header, against a map whose one entry is
    for 404: the status is failed and outside both ranges, the map is not
    empty and has no entry for 302, and yet no body is parsed and no
    object is asked of a root node. [get_root_parse_node] raises
    [DeserializationError] before it calls the parse node factory: the
    history of calls is left as it was. *)
Lemma failed_elsewhere_without_content_type_parses_nothing :
  ~ (200 <= status_code found_elsewhere < 300)
  /\ ~ (400 <= status_code found_elsewhere < 600)
  /\ not_found_only <> ∅
  /\ not_found_only !! pretty (status_code found_elsewhere) = None
  /\ headers_get (headers found_elsewhere) "content-type" = None
  /\ io (throw_failed_responses (scripted [] ok_json) found_elsewhere
           not_found_only a_span a_span [])
     = (Raise (DeserializationError
                 "No response content type found for deserialization"), []).
Proof.
  split; [simpl; lia|]. split; [simpl; lia|].
  split; [vm_compute; discriminate|].
  repeat (split; [vm_compute; reflexivity|]).
  vm_compute. reflexivity.
Qed.

(** On 4xx and 5xx statuses the lookup of the code is the lookup of the
    spec. With the map of the spec's example, a 404 gets F1 and a 403
    gets F2. *)
Lemma error_class_precedence_4xx_5xx env r (em : ErrorMap) ps ats h :
  400 <= status_code r < 600 ->
  io (throw_failed_responses env r em ps ats h) =
  match registered_error_class (status_code r) em with
  | Some f => error_materialization env r (Some f) h
  | None => (Raise (no_error_class_registered r), h)
  end.
Proof. apply io_throw_failed_responses_4xx_5xx. Qed.

Lemma registered_error_class_examples :
  registered_error_class 404 exact_and_class = Some "F1"
  /\ registered_error_class 403 {["4XX" := "F2"]} = Some "F2".
Proof. split; vm_compute; reflexivity. Qed.

(** C2, at a 302 response and the map with entries for 404 and 4XX: the
    lookup of the spec finds no factory, so the generic error is due; the
    code raises no such error. It goes on to read the body with the error
    class [None]: without a content type that fails with
    [DeserializationError], and with one the root node is asked for an
    object of class [None]. *)
Theorem failed_elsewhere_misses_generic_error env ps ats h :
  registered_error_class (status_code found_elsewhere) exact_and_class = None
  /\ io (throw_failed_responses env found_elsewhere exact_and_class ps ats h)
     = (Raise (DeserializationError
                 "No response content type found for deserialization"), h)
  /\ io (throw_failed_responses env found_elsewhere exact_and_class ps ats h)
     <> (Raise (no_error_class_registered found_elsewhere), h)
  /\ io (throw_failed_responses (scripted [] ok_json) moved_json
           exact_and_class ps ats h)
     = (Raise (none_has_no_attribute "create_from_discriminator_value"),
        (h ++ [ParseRoot "application/json" "{}";
               NodeCall "{}" (GetObjectValue None)])%list).
Proof.
  assert (Hne : exact_and_class <> ∅) by (vm_compute; discriminate).
  assert (Hk : exact_and_class !! "302" = None) by (vm_compute; reflexivity).
  split; [vm_compute; reflexivity|].
  rewrite !io_throw_failed_responses_elsewhere;
    [| reflexivity | simpl; lia | exact Hne | exact Hk
     | reflexivity | simpl; lia | exact Hne | exact Hk].
  split; [reflexivity|]. split; [discriminate|].
  unfold error_materialization. simpl. rewrite <- List.app_assoc. reflexivity.
Qed.

End FailureResolution.

(** ** Dispatch and the claims retry *)

Module Dispatch.
Import PyStr Re Httpx Model Comp HttpxRequestAdapter Phases Scenario CompFacts.
Import FailureResolution.
#[local] Open Scope comp_scope.

Lemma io_bind_ext {A B} (m : M A) (k1 k2 : A -> M B) h :
  (forall a h1, io (k1 a h1) = io (k2 a h1)) ->
  io (bind m k1 h) = io (bind m k2 h).
Proof.
  intros H. rewrite !io_bind.
  destruct (io (m h)) as [[a|e] h1]; [apply H|reflexivity].
Qed.

Lemma is_bearer_truthy v : is_bearer v = true -> truthy v = true.
Proof. destruct v; [discriminate|reflexivity]. Qed.

Section WithCollaborators.
Variable env : Collaborators.
Variable self : Adapter.

(** [get_http_response_message] is one dispatch cycle followed by
    [retry_cae_response_if_required]. *)
Lemma io_get_http_response_message_at_S depth ri sp claims h :
  io (get_http_response_message_at env self (S depth) ri sp claims h) =
  io (bind (dispatch_once env self ri sp claims)
        (fun sent =>
           retry_cae_response_if_required_with env
             (get_http_response_message_at env self depth)
             (snd sent) (fst sent) claims) h).
Proof.
  cbn [get_http_response_message_at]. unfold dispatch_once.
  repeat (rewrite ?io_bind_assoc; apply io_bind_ext; intros).
  rewrite io_bind_ret. reflexivity.
Qed.

Lemma start_tracing_span_some ri method :
  start_tracing_span env (Some ri) method =
  bind (emit (SpanStart (parent_span_of env method ri)))
    (fun _ => ret (parent_span_of env method ri)).
Proof. reflexivity. Qed.

(** Without a 401, with claims already supplied, or without the header,
    the response is passed on. *)
Lemma io_retry_pass again resp ri claims h :
  (status_code resp =? 401) && negb (truthy claims)
  && option_truthy (headers_get (headers resp) RESPONSE_AUTH_HEADER) = false ->
  io (retry_cae_response_if_required_with env again resp ri claims h) =
  (Return (ri, resp), h).
Proof.
  intros H. unfold retry_cae_response_if_required_with.
  rewrite start_tracing_span_some. io_simpl. rewrite H. reflexivity.
Qed.

(** A header of another scheme than Bearer: the response is passed on. *)
Lemma io_retry_other_scheme again resp ri claims v h :
  headers_get (headers resp) RESPONSE_AUTH_HEADER = Some v ->
  is_bearer v = false ->
  io (retry_cae_response_if_required_with env again resp ri claims h) =
  (Return (ri, resp), h).
Proof.
  intros Hv Hb. unfold retry_cae_response_if_required_with.
  rewrite start_tracing_span_some. io_simpl. rewrite Hv. fold (is_bearer v).
  rewrite Hb. destruct (_ && _); reflexivity.
Qed.

(** A Bearer header the pattern does not match. *)
Lemma io_retry_malformed again resp ri v h :
  status_code resp = 401 ->
  headers_get (headers resp) RESPONSE_AUTH_HEADER = Some v ->
  is_bearer v = true ->
  search_claims v = None ->
  io (retry_cae_response_if_required_with env again resp ri EmptyString h) =
  (Raise (ValueError "Unable to parse claims from response"), h).
Proof.
  intros Hs Hv Hb Hm. unfold retry_cae_response_if_required_with.
  rewrite start_tracing_span_some. io_simpl. rewrite Hv, Hs.
  fold (is_bearer v). rewrite Hb, Hm. cbn [option_truthy].
  rewrite (is_bearer_truthy v Hb). reflexivity.
Qed.

(** A Bearer header the pattern matches: the cycle is run again with the
    claims cut out of the match. *)
Lemma io_retry_claims again resp ri v c h :
  status_code resp = 401 ->
  headers_get (headers resp) RESPONSE_AUTH_HEADER = Some v ->
  is_bearer v = true ->
  response_claims_of v = Some c ->
  io (retry_cae_response_if_required_with env again resp ri EmptyString h) =
  io (again ri (parent_span_of env "retry_cae_response_if_required" ri) c h).
Proof.
  intros Hs Hv Hb Hc. unfold retry_cae_response_if_required_with.
  rewrite start_tracing_span_some. io_simpl. rewrite Hv, Hs.
  fold (is_bearer v). rewrite Hb. cbn [option_truthy].
  rewrite (is_bearer_truthy v Hb).
  unfold response_claims_of in Hc.
  destruct (search_claims v) as [m|]; [|discriminate].
  unfold index. rewrite Hc. cbn [Z.eqb Pos.eqb truthy negb andb]. io_simpl.
  reflexivity.
Qed.

(** When the claims cut out of the header are not empty, the second cycle
    is the last: its response is returned whatever its status. *)
Lemma io_retry_once depth ri sp h ri1 resp h1 v c :
  io (dispatch_once env self ri sp EmptyString h) = (Return (ri1, resp), h1) ->
  status_code resp = 401 ->
  headers_get (headers resp) RESPONSE_AUTH_HEADER = Some v ->
  is_bearer v = true ->
  response_claims_of v = Some c ->
  truthy c = true ->
  io (get_http_response_message_at env self (S (S depth)) ri sp EmptyString h) =
  io (dispatch_once env self ri1
        (parent_span_of env "retry_cae_response_if_required" ri1) c h1).
Proof.
  intros Hd Hs Hv Hb Hc Ht.
  rewrite io_get_http_response_message_at_S, io_bind, Hd. cbn [fst snd].
  rewrite (io_retry_claims _ _ _ v c) by assumption.
  rewrite io_get_http_response_message_at_S, io_bind.
  destruct (io (dispatch_once env self ri1 _ c h1)) as [[[ri2 resp2]|e] h2];
    [|reflexivity].
  cbn [fst snd].
  apply io_retry_pass. rewrite Ht. cbn [negb]. now rewrite andb_false_r.
Qed.

(** A response that is not a 401 is final. *)
Lemma io_no_retry depth ri sp claims h ri1 resp h1 :
  io (dispatch_once env self ri sp claims h) = (Return (ri1, resp), h1) ->
  status_code resp <> 401 ->
  io (get_http_response_message_at env self (S depth) ri sp claims h) =
  (Return (ri1, resp), h1).
Proof.
  intros Hd Hs.
  rewrite io_get_http_response_message_at_S, io_bind, Hd. cbn [fst snd].
  apply io_retry_pass. replace (status_code resp =? 401) with false by lia.
  reflexivity.
Qed.

End WithCollaborators.

(** Every send starts the same way: the parent span, then
    [get_http_response_message]. *)
Ltac open_send v :=
  destruct v; cbn [send send_name];
  unfold send_async, send_collection_async, send_collection_of_primitive_async,
    send_primitive_async, send_no_response_content_async;
  rewrite start_tracing_span_some; io_simpl;
  lazymatch goal with
  | |- io (bind ?m ?k ?h) = _ => rewrite (io_bind m k h)
  end.

Ltac io_next :=
  lazymatch goal with
  | |- io (bind ?m ?k ?h) = _ => rewrite (io_bind m k h)
  end.

Lemma io_send_raise env self v ri (em : ErrorMap) h e h1 :
  io (get_http_response_message env self ri
        (parent_span_of env (send_name v) ri) EmptyString h)
  = (Raise e, h1) ->
  io (send env self v (Some ri) em h) = (Raise e, h1).
Proof.
  intros H. open_send v; cbn [send_name] in H; rewrite H; reflexivity.
Qed.

End Dispatch.

(** ** The claims cut out of a challenge *)

Module ClaimsExtraction.
Import PyStr Re Httpx Model Comp HttpxRequestAdapter Phases Scenario CompFacts.
Import PyStrFacts Dispatch.
#[local] Open Scope comp_scope.

Lemma upto_last_quote_sound s : forall p,
  upto_last_quote s = Some p ->
  exists body rest, p = body +:+ String dquote EmptyString /\ s = p +:+ rest.
Proof.
  induction s as [|c r IH]; intros p H; [discriminate|].
  cbn [upto_last_quote] in H.
  destruct (upto_last_quote r) as [q|] eqn:Hq.
  - injection H as <-. destruct (IH q eq_refl) as (body & rest & -> & Hr).
    exists (String c body), rest. split; [reflexivity|].
    rewrite !app_cons. now rewrite <- Hr.
  - destruct (Ascii.eqb c dquote) eqn:Hc; [|discriminate].
    apply Ascii.eqb_eq in Hc. subst c. injection H as <-.
    exists EmptyString, r. split; reflexivity.
Qed.

Lemma upto_last_quote_complete a b :
  upto_last_quote (a +:+ String dquote b) <> None.
Proof.
  induction a as [|c a IH].
  - rewrite app_nil_l. cbn [upto_last_quote].
    destruct (upto_last_quote b); [discriminate|].
    rewrite Ascii.eqb_refl. discriminate.
  - rewrite app_cons. cbn [upto_last_quote].
    destruct (upto_last_quote (a +:+ String dquote b)); [discriminate|].
    contradiction.
Qed.

Lemma line_of_prefix s : exists rest, s = line_of s +:+ rest.
Proof.
  induction s as [|c r [rest IH]].
  - exists EmptyString. reflexivity.
  - cbn [line_of]. destruct (Ascii.eqb c newline).
    + exists (String c r). reflexivity.
    + exists rest. rewrite app_cons. now rewrite <- IH.
Qed.

Lemma line_of_idem s : line_of (line_of s) = line_of s.
Proof.
  induction s as [|c r IH]; [reflexivity|].
  cbn [line_of]. destruct (Ascii.eqb c newline) eqn:Hc; [reflexivity|].
  cbn [line_of]. now rewrite Hc, IH.
Qed.

Lemma line_of_app a b : line_of a = a -> line_of (a +:+ b) = a +:+ line_of b.
Proof.
  induction a as [|c a IH]; intros H; [reflexivity|].
  rewrite app_cons. cbn [line_of] in *.
  destruct (Ascii.eqb c newline); [discriminate|].
  injection H as H. now rewrite IH.
Qed.

Lemma line_of_app_l a b : line_of (a +:+ b) = a +:+ b -> line_of a = a.
Proof.
  induction a as [|c a IH]; intros H; [reflexivity|].
  rewrite app_cons in H. cbn [line_of] in *.
  destruct (Ascii.eqb c newline); [discriminate|].
  injection H as H. now rewrite IH.
Qed.

Lemma match_body_sound s m :
  match_body s = Some m ->
  exists body rest,
    m = body +:+ String dquote EmptyString /\ s = m +:+ rest
    /\ body <> EmptyString /\ line_of body = body.
Proof.
  unfold match_body. intros H.
  destruct (line_of_prefix s) as [rest Hs].
  destruct (line_of s) as [|c r] eqn:Hl; [discriminate|].
  destruct (upto_last_quote r) as [p|] eqn:Hp; [|discriminate].
  injection H as <-.
  destruct (upto_last_quote_sound r p Hp) as (body & rest' & -> & Hr).
  exists (String c body), (rest' +:+ rest). split; [reflexivity|].
  split.
  - rewrite Hs, Hr, !app_cons, !app_assoc. reflexivity.
  - split; [discriminate|].
    pose proof (line_of_idem s) as Hi. rewrite Hl in Hi.
    assert (He : String c r
                 = String c body +:+ (String dquote EmptyString +:+ rest'))
      by (rewrite Hr, app_cons, app_assoc; reflexivity).
    rewrite He in Hi. now apply line_of_app_l in Hi.
Qed.

Lemma prefix_app p s : String.prefix p (p +:+ s) = true.
Proof.
  induction p as [|c p IH]; [apply prefix_nil|].
  rewrite app_cons, prefix_cons, Ascii.eqb_refl. exact IH.
Qed.

Lemma drop_app p s : drop (String.length p) (p +:+ s) = s.
Proof. induction p as [|c p IH]; [reflexivity|]. exact IH. Qed.

Lemma prefix_true_app p s :
  String.prefix p s = true -> s = p +:+ drop (String.length p) s.
Proof.
  revert s. induction p as [|c p IH]; intros s H; [reflexivity|].
  destruct s as [|d s]; [discriminate|].
  rewrite prefix_cons in H. apply andb_prop in H as [Hc Hp].
  apply Ascii.eqb_eq in Hc. subst d. rewrite app_cons. cbn [String.length drop].
  now rewrite <- IH.
Qed.

Lemma match_here_sound s m :
  match_here s = Some m ->
  exists body post,
    s = m +:+ post
    /\ m = claims_open +:+ body +:+ String dquote EmptyString
    /\ body <> EmptyString /\ line_of body = body.
Proof.
  unfold match_here. intros H.
  destruct (String.prefix claims_open s) eqn:Hp; [|discriminate].
  destruct (match_body _) as [b|] eqn:Hb; [|discriminate].
  injection H as <-.
  destruct (match_body_sound _ _ Hb) as (body & rest & -> & Hr & Hne & Hl).
  exists body, rest. repeat split; try assumption.
  rewrite (prefix_true_app _ _ Hp) at 1. rewrite Hr at 1.
  now rewrite !app_assoc.
Qed.

Lemma search_claims_sound s m : search_claims s = Some m -> occurs_in s m.
Proof.
  induction s as [|c r IH]; cbn [search_claims]; intros H.
  - destruct (match_here EmptyString) as [m'|] eqn:Hm; [|discriminate].
    injection H as <-.
    destruct (match_here_sound _ _ Hm) as (body & post & Hs & Hrest).
    exists EmptyString, body, post. split; [exact Hs|exact Hrest].
  - destruct (match_here (String c r)) as [m'|] eqn:Hm.
    + injection H as <-.
      destruct (match_here_sound _ _ Hm) as (body & post & Hs & Hrest).
      exists EmptyString, body, post. split; [exact Hs|exact Hrest].
    + destruct (IH H) as (pre & body & post & Hs & Hrest).
      exists (String c pre), body, post. split; [|exact Hrest].
      rewrite app_cons. now rewrite <- Hs.
Qed.

Lemma match_here_complete body post :
  body <> EmptyString -> line_of body = body ->
  match_here (claims_open +:+ body +:+ String dquote post) <> None.
Proof.
  intros Hne Hl. unfold match_here. rewrite prefix_app, drop_app.
  unfold match_body. rewrite line_of_app by exact Hl.
  destruct body as [|c b]; [contradiction|]. rewrite app_cons.
  cbn [line_of] in Hl |- *.
  destruct (Ascii.eqb c newline); [discriminate|].
  change (line_of (String dquote post)) with (String dquote (line_of post)).
  pose proof (upto_last_quote_complete b (line_of post)) as Hq.
  destruct (upto_last_quote _); [discriminate|contradiction].
Qed.

Lemma search_claims_complete s m : occurs_in s m -> search_claims s <> None.
Proof.
  intros (pre & body & post & -> & -> & Hne & Hl).
  induction pre as [|c pre IH].
  - rewrite app_nil_l, !app_assoc. 
    pose proof (match_here_complete body post Hne Hl) as Hm.
    change (String dquote EmptyString +:+ post) with (String dquote post).
    destruct (claims_open +:+ body +:+ String dquote post) eqn:E;
    cbn [search_claims]; destruct (match_here _); try discriminate; contradiction.
  - rewrite app_cons. cbn [search_claims].
    destruct (match_here _); [discriminate|exact IH].
Qed.

Lemma split_claims_open b :
  split (claims_open +:+ b) eq_quote =
  "claims" :: split_from eq_quote 0 EmptyString b.
Proof. destruct b; reflexivity. Qed.

Lemma prefix_eq_quote_quote s :
  String.prefix eq_quote (String dquote s) = false.
Proof. unfold eq_quote. rewrite app_cons, prefix_cons. reflexivity. Qed.

(** The first piece of a text in double quotes, cut at every equals sign
    followed by a double quote, is never the text between the quotes:
    either the closing quote is still there, or the text was cut short. *)
Lemma first_piece_length s : forall cur x,
  head (split_from eq_quote 0 cur (s +:+ String dquote EmptyString)) = Some x ->
  String.length x <> (String.length cur + String.length s)%nat.
Proof.
  assert (Hlen : forall a b : string,
             String.length (a +:+ b) = (String.length a + String.length b)%nat).
  { intros a b. induction a as [|c a IH]; [reflexivity|].
    rewrite app_cons. cbn [String.length]. now rewrite IH. }
  induction s as [|c r IH]; intros cur x.
  - rewrite app_nil_l. cbn [split_from]. rewrite prefix_eq_quote_quote.
    cbn [split_from head]. intros [= <-]. rewrite Hlen. cbn [String.length]. lia.
  - rewrite app_cons. cbn [split_from].
    destruct (String.prefix eq_quote _).
    + cbn [head]. intros [= <-]. cbn [String.length]. lia.
    + intros H. apply IH in H. rewrite Hlen in H. cbn [String.length] in *. lia.
Qed.

Lemma response_claims_not_the_value v body :
  search_claims v = Some (claims_open +:+ body +:+ String dquote EmptyString) ->
  response_claims_of v <> Some body.
Proof.
  intros H. unfold response_claims_of. rewrite H.
  rewrite split_claims_open.
  change (("claims" :: ?l) !! 1%nat) with (l !! 0%nat).
  rewrite <- head_lookup. intros Hx.
  apply first_piece_length in Hx. cbn [String.length] in Hx. lia.
Qed.

Lemma response_claims_defined v m :
  search_claims v = Some m -> is_Some (response_claims_of v).
Proof.
  intros H. destruct (search_claims_sound _ _ H) as (pre & body & post & _ & -> & _).
  unfold response_claims_of. rewrite H. rewrite split_claims_open.
  change (("claims" :: ?l) !! 1%nat) with (l !! 0%nat).
  rewrite <- head_lookup.
  destruct (split_from_head eq_quote (body +:+ String dquote EmptyString) 0 EmptyString) as [x Hx].
  rewrite Hx. eauto.
Qed.

Lemma sends_app h1 h2 : sends (h1 ++ h2) = (sends h1 + sends h2)%nat.
Proof. unfold sends. now rewrite List.filter_app, List.length_app. Qed.

Lemma authentication_contexts_app h1 h2 :
  authentication_contexts (h1 ++ h2) =
  (authentication_contexts h1 ++ authentication_contexts h2)%list.
Proof.
  induction h1 as [|ev h1 IH]; [reflexivity|].
  destruct ev; cbn [authentication_contexts List.app]; now rewrite ?IH.
Qed.

(** One cycle against the scripted collaborators, from any history. *)
Lemma io_dispatch_once_scripted last self ri sp claims h :
  exists req,
    io (dispatch_once (scripted [] last) self ri sp claims h) =
    (Return (set_base_url_for_request_information self ri, last),
     (h ++ [Authenticate (set_base_url_for_request_information self ri)
              (if truthy claims then {[CLAIMS_KEY := claims]} else ∅);
            Send req])%list).
Proof.
  eexists. unfold dispatch_once, get_request_from_request_information.
  io_simpl. cbn [scripted authenticate_request request_url urlparse
                   build_request http_client_send].
  io_simpl.
  replace (nth _ [] last) with last by (destruct (sends _); reflexivity).
  unfold set_attribute_if_header.
  destruct (truthy (http_version last));
    destruct (headers_get (headers last) "Content-Length") as [l|];
    destruct (headers_get (headers last) "Content-Type") as [t|];
    try destruct (truthy l); try destruct (truthy t); io_simpl;
    rewrite <- List.app_assoc; reflexivity.
Qed.

(** A claims value that is one equals sign: every cycle is challenged
    again, down to the recursion limit. *)
Lemma empty_claims_retry_chains self depth : forall ri sp h,
  let run :=
    io (get_http_response_message_at (scripted [] (challenged "=")) self depth
          ri sp EmptyString h) in
  fst run = Raise RecursionError
  /\ sends (snd run) = (sends h + depth)%nat
  /\ authentication_contexts (snd run) =
     (authentication_contexts h ++ List.repeat ∅ depth)%list.
Proof.
  induction depth as [|depth IH]; intros ri sp h run; subst run.
  - cbn. rewrite Nat.add_0_r, List.app_nil_r. auto.
  - rewrite io_get_http_response_message_at_S, io_bind.
    destruct (io_dispatch_once_scripted (challenged "=") self ri sp
                EmptyString h) as [req ->].
    cbn [fst snd truthy].
    rewrite (io_retry_claims _ _ _ _ (challenge "=") EmptyString)
      by (vm_compute; reflexivity).
    match goal with
    | |- context [get_http_response_message_at _ _ _ ?ri' ?sp' _ ?h'] =>
        destruct (IH ri' sp' h') as (H1 & H2 & H3)
    end.
    rewrite H1, H2, H3, sends_app, authentication_contexts_app.
    cbn [sends List.filter List.length authentication_contexts List.repeat].
    split; [reflexivity|]. split; [lia|].
    rewrite <- List.app_assoc. reflexivity.
Qed.

End ClaimsExtraction.

(** ** The send operations *)

Module SendOperations.
Import PyStr Re Httpx Model Comp HttpxRequestAdapter Phases Scenario CompFacts.
Import FailureResolution Dispatch ClaimsExtraction.
#[local] Open Scope comp_scope.

(** C5: for every send variant, when the request carries no response
    handler and the response has status 204, the result is [None]; after
    the dispatch no collaborator is called, so no body is parsed, whatever
    the error map and the body are. *)
Theorem no_content_short_circuit env self v ri (em : ErrorMap) h ri1 resp h1 :
  io (get_http_response_message env self ri
        (parent_span_of env (send_name v) ri) EmptyString h)
  = (Return (ri1, resp), h1) ->
  outcome (get_response_handler self ri1 h1) = Return None ->
  status_code resp = 204 ->
  io (send env self v (Some ri) em h) = (Return VNone, h1).
Proof.
  intros H Hopt Hs.
  assert (Hh : io (get_response_handler self ri1 h1) = (Return None, h1)).
  { revert Hopt. unfold get_response_handler, outcome, io.
    destruct (request_options ri1 !! response_handler_key self) as [[]|];
      cbn; congruence. }
  assert (Hok : forall ps ats,
             throw_failed_responses env resp em ps ats h1 = (Return tt, h1, [])).
  { intros. apply throw_failed_responses_success, is_success_iff. lia. }
  open_send v; cbn [send_name] in H; rewrite H; cbn [fst snd];
    io_next; rewrite Hh; io_next; rewrite Hok; cbn [io fst];
    unfold _should_return_none; rewrite ?Hs; reflexivity.
Qed.

Lemma no_content_short_circuit_witness :
  io (get_http_response_message (scripted [] no_content) adapter users_request
        (parent_span_of (scripted [] no_content)
           (send_name (SendObject "User")) users_request) EmptyString [])
  = (Return (based users_request, no_content),
     cycle users_request "send_async" ∅)
  /\ outcome (get_response_handler adapter (based users_request)
                (cycle users_request "send_async" ∅)) = Return None
  /\ status_code no_content = 204
  /\ io (send (scripted [] no_content) adapter (SendObject "User")
           (Some users_request) (<["204" := "F0"]> {["2XX" := "F1"]}) [])
     = (Return VNone, cycle users_request "send_async" ∅).
Proof.
  assert (H1 :
    io (get_http_response_message (scripted [] no_content) adapter users_request
          (parent_span_of (scripted [] no_content)
             (send_name (SendObject "User")) users_request) EmptyString [])
    = (Return (based users_request, no_content),
       cycle users_request "send_async" ∅)) by (vm_compute; reflexivity).
  assert (H2 :
    outcome (get_response_handler adapter (based users_request)
               (cycle users_request "send_async" ∅)) = Return None)
    by (vm_compute; reflexivity).
  assert (H3 : status_code no_content = 204) by reflexivity.
  split; [exact H1|]. split; [exact H2|]. split; [exact H3|].
  exact (no_content_short_circuit (scripted [] no_content) adapter
           (SendObject "User") users_request _ [] _ _ _ H1 H2 H3).
Defined.

(** C7: for every send variant, when the request carries a response
    handler, the handler is called with the response and the error map and
    what it returns or raises is the result of the send; it is the only
    call after the dispatch, so failure resolution and deserialization are
    skipped. So a 500 response does not raise by itself. *)
Theorem response_handler_bypass env self v ri (em : ErrorMap) h ri1 resp h1
  handler :
  io (get_http_response_message env self ri
        (parent_span_of env (send_name v) ri) EmptyString h)
  = (Return (ri1, resp), h1) ->
  request_options ri1 !! response_handler_key self
  = Some (ResponseHandlerOption (Some handler)) ->
  io (send env self v (Some ri) em h) =
  (handle_response_async env h1 handler resp em,
   (h1 ++ [Handle handler resp em])%list).
Proof.
  intros H Hopt.
  open_send v; cbn [send_name] in H; rewrite H; cbn [fst snd];
    unfold get_response_handler; rewrite Hopt; io_simpl; reflexivity.
Qed.

Lemma response_handler_bypass_witness :
  io (get_http_response_message (scripted [] server_error) adapter
        (with_handler "on_response")
        (parent_span_of (scripted [] server_error)
           (send_name SendNoResponseContent) (with_handler "on_response"))
        EmptyString [])
  = (Return (based (with_handler "on_response"), server_error),
     cycle (with_handler "on_response") "send_no_response_content_async" ∅)
  /\ request_options (based (with_handler "on_response"))
       !! response_handler_key adapter
     = Some (ResponseHandlerOption (Some "on_response"))
  /\ io (send (scripted [] server_error) adapter SendNoResponseContent
           (Some (with_handler "on_response")) exact_and_class [])
     = (Return (VStr "on_response"),
        (cycle (with_handler "on_response") "send_no_response_content_async" ∅
         ++ [Handle "on_response" server_error exact_and_class])%list).
Proof.
  assert (H1 :
    io (get_http_response_message (scripted [] server_error) adapter
          (with_handler "on_response")
          (parent_span_of (scripted [] server_error)
             (send_name SendNoResponseContent) (with_handler "on_response"))
          EmptyString [])
    = (Return (based (with_handler "on_response"), server_error),
       cycle (with_handler "on_response") "send_no_response_content_async" ∅))
    by (vm_compute; reflexivity).
  assert (H2 :
    request_options (based (with_handler "on_response"))
      !! response_handler_key adapter
    = Some (ResponseHandlerOption (Some "on_response")))
    by (vm_compute; reflexivity).
  split; [exact H1|]. split; [exact H2|].
  exact (response_handler_bypass (scripted [] server_error) adapter
           SendNoResponseContent (with_handler "on_response") exact_and_class
           [] _ _ _ _ H1 H2).
Defined.

(** C3, as the code has it: for every send variant, when the response to
    the first attempt of a send, the one made without claims, is a 401 with
    a WWW-Authenticate header, then: if the value starts with the scheme
    Bearer, in any case of the letters, and the claims pattern has no
    occurrence in it (nowhere the word claims, an equals sign and a double
    quote followed, before any line feed, by at least one character and
    then a double quote), the send fails with the [ValueError] that the
    claims cannot be parsed, and nothing is called after the dispatch; if
    the value starts with another scheme, this is no error and
    [get_http_response_message] returns the response as it is, to the
    response handler or to failure resolution. *)
Theorem bearer_challenge_without_match_raises env self v ri (em : ErrorMap) h
  ri1 resp h1 value :
  recursion_limit self <> 0%nat ->
  io (dispatch_once env self ri (parent_span_of env (send_name v) ri)
        EmptyString h)
  = (Return (ri1, resp), h1) ->
  status_code resp = 401 ->
  headers_get (headers resp) "WWW-Authenticate" = Some value ->
  (is_bearer value = true ->
   (forall m, ~ occurs_in value m) ->
   io (send env self v (Some ri) em h) =
   (Raise (ValueError "Unable to parse claims from response"), h1))
  /\ (is_bearer value = false ->
      io (get_http_response_message env self ri
            (parent_span_of env (send_name v) ri) EmptyString h)
      = (Return (ri1, resp), h1)).
Proof.
  intros Hlimit Hd Hs Hv. split.
  - intros Hb Hno. apply io_send_raise.
    assert (Hm : search_claims value = None).
    { destruct (search_claims value) as [m|] eqn:E; [|reflexivity].
      exfalso. exact (Hno m (search_claims_sound _ _ E)). }
    unfold get_http_response_message.
    destruct (recursion_limit self) as [|depth]; [contradiction|].
    rewrite io_get_http_response_message_at_S, io_bind, Hd. cbn [fst snd].
    now apply io_retry_malformed with (v := value).
  - intros Hb. unfold get_http_response_message.
    destruct (recursion_limit self) as [|depth]; [contradiction|].
    rewrite io_get_http_response_message_at_S, io_bind, Hd. cbn [fst snd].
    now apply io_retry_other_scheme with (v := value).
Qed.

Lemma bearer_challenge_without_match_raises_witness :
  recursion_limit adapter <> 0%nat
  /\ io (dispatch_once (scripted [] bearer_without_claims) adapter users_request
           (parent_span_of (scripted [] bearer_without_claims)
              (send_name (SendPrimitive "str")) users_request)
           EmptyString [])
     = (Return (based users_request, bearer_without_claims),
        cycle users_request "send_primitive_async" ∅)
  /\ status_code bearer_without_claims = 401
  /\ headers_get (headers bearer_without_claims) "WWW-Authenticate"
     = Some ("Bearer realm=" +:+ quoted "x")
  /\ is_bearer ("Bearer realm=" +:+ quoted "x") = true
  /\ (forall m, ~ occurs_in ("Bearer realm=" +:+ quoted "x") m)
  /\ io (send (scripted [] bearer_without_claims) adapter (SendPrimitive "str")
           (Some users_request) exact_and_class [])
     = (Raise (ValueError "Unable to parse claims from response"),
        cycle users_request "send_primitive_async" ∅)
  /\ io (dispatch_once (scripted [] basic_challenged) adapter users_request
           (parent_span_of (scripted [] basic_challenged)
              (send_name (SendPrimitive "str")) users_request)
           EmptyString [])
     = (Return (based users_request, basic_challenged),
        cycle users_request "send_primitive_async" ∅)
  /\ status_code basic_challenged = 401
  /\ headers_get (headers basic_challenged) "WWW-Authenticate"
     = Some ("Basic realm=" +:+ quoted "x")
  /\ is_bearer ("Basic realm=" +:+ quoted "x") = false
  /\ io (get_http_response_message (scripted [] basic_challenged) adapter
           users_request
           (parent_span_of (scripted [] basic_challenged)
              (send_name (SendPrimitive "str")) users_request)
           EmptyString [])
     = (Return (based users_request, basic_challenged),
        cycle users_request "send_primitive_async" ∅).
Proof.
  assert (H0 : recursion_limit adapter <> 0%nat) by (simpl; lia).
  assert (H1 :
    io (dispatch_once (scripted [] bearer_without_claims) adapter users_request
          (parent_span_of (scripted [] bearer_without_claims)
             (send_name (SendPrimitive "str")) users_request)
          EmptyString [])
    = (Return (based users_request, bearer_without_claims),
       cycle users_request "send_primitive_async" ∅))
    by (vm_compute; reflexivity).
  assert (H2 : status_code bearer_without_claims = 401) by reflexivity.
  assert (H3 :
    headers_get (headers bearer_without_claims) "WWW-Authenticate"
    = Some ("Bearer realm=" +:+ quoted "x")) by (vm_compute; reflexivity).
  assert (H4 : is_bearer ("Bearer realm=" +:+ quoted "x") = true)
    by (vm_compute; reflexivity).
  assert (H5 : forall m, ~ occurs_in ("Bearer realm=" +:+ quoted "x") m).
  { intros m Hm. apply search_claims_complete in Hm. apply Hm.
    vm_compute. reflexivity. }
  assert (B1 :
    io (dispatch_once (scripted [] basic_challenged) adapter users_request
          (parent_span_of (scripted [] basic_challenged)
             (send_name (SendPrimitive "str")) users_request)
          EmptyString [])
    = (Return (based users_request, basic_challenged),
       cycle users_request "send_primitive_async" ∅))
    by (vm_compute; reflexivity).
  assert (B2 : status_code basic_challenged = 401) by reflexivity.
  assert (B3 :
    headers_get (headers basic_challenged) "WWW-Authenticate"
    = Some ("Basic realm=" +:+ quoted "x")) by (vm_compute; reflexivity).
  assert (B4 : is_bearer ("Basic realm=" +:+ quoted "x") = false)
    by (vm_compute; reflexivity).
  split; [exact H0|]. split; [exact H1|]. split; [exact H2|].
  split; [exact H3|]. split; [exact H4|]. split; [exact H5|].
  split.
  { exact (proj1 (bearer_challenge_without_match_raises
                    (scripted [] bearer_without_claims) adapter
                    (SendPrimitive "str") users_request exact_and_class [] _ _
                    _ _ H0 H1 H2 H3) H4 H5). }
  split; [exact B1|]. split; [exact B2|]. split; [exact B3|].
  split; [exact B4|].
  exact (proj2 (bearer_challenge_without_match_raises
                  (scripted [] basic_challenged) adapter (SendPrimitive "str")
                  users_request exact_and_class [] _ _ _ _ H0 B1 B2 B3) B4).
Defined.

(** Three 401 responses whose WWW-Authenticate header holds no claims
    component of a Bearer challenge with a value, and on which the send
    does not fail with the claims error. First, the scheme Basic: the
    response goes to failure resolution, which here raises the generic
    error for a 401. Second, a Bearer header without claims that arrives
    as the answer to the retry, the attempt made with claims: it is not
    looked at again and goes to failure resolution as well. Third, a
    Bearer header whose claims component is empty and is followed by
    another quoted parameter: the pattern matches from the opening quote
    of the claims to the last quote of the value, so the request is
    retried, with claims that are a quote, a comma, a space and the
    word error. *)
Lemma challenges_that_raise_no_claims_error :
  (status_code basic_challenged = 401
   /\ headers_get (headers basic_challenged) "WWW-Authenticate"
      = Some ("Basic realm=" +:+ quoted "x")
   /\ is_bearer ("Basic realm=" +:+ quoted "x") = false
   /\ search_claims ("Basic realm=" +:+ quoted "x") = None
   /\ io (send (scripted [] basic_challenged) adapter SendNoResponseContent
            (Some users_request) ∅ [])
      = (Raise (no_error_class_registered basic_challenged),
         cycle users_request "send_no_response_content_async" ∅)
   /\ outcome (send (scripted [] basic_challenged) adapter
                 SendNoResponseContent (Some users_request) ∅ [])
      <> Raise (ValueError "Unable to parse claims from response"))
  /\ (status_code bearer_without_claims = 401
      /\ headers_get (headers bearer_without_claims) "WWW-Authenticate"
         = Some ("Bearer realm=" +:+ quoted "x")
      /\ is_bearer ("Bearer realm=" +:+ quoted "x") = true
      /\ search_claims ("Bearer realm=" +:+ quoted "x") = None
      /\ io (send (scripted [challenged "abc"] bearer_without_claims) adapter
               SendNoResponseContent (Some users_request) ∅ [])
         = (Raise (no_error_class_registered bearer_without_claims),
            (cycle users_request "send_no_response_content_async" ∅
             ++ cycle users_request "retry_cae_response_if_required"
                  {["claims" := "abc" +:+ String dquote EmptyString]})%list)
      /\ outcome (send (scripted [challenged "abc"] bearer_without_claims)
                    adapter SendNoResponseContent (Some users_request) ∅ [])
         <> Raise (ValueError "Unable to parse claims from response"))
  /\ (status_code empty_claims_challenged = 401
      /\ headers_get (headers empty_claims_challenged) "WWW-Authenticate"
         = Some ("Bearer claims=" +:+ quoted EmptyString
                 +:+ ", error=" +:+ quoted "x")
      /\ is_bearer ("Bearer claims=" +:+ quoted EmptyString
                    +:+ ", error=" +:+ quoted "x") = true
      /\ io (send (scripted [empty_claims_challenged] ok_json) adapter
               SendNoResponseContent (Some users_request) ∅ [])
         = (Return VNone,
            (cycle users_request "send_no_response_content_async" ∅
             ++ cycle users_request "retry_cae_response_if_required"
                  {["claims" := String dquote ", error"]})%list)).
Proof.
  split; [|split].
  - repeat (split; [vm_compute; reflexivity|]). vm_compute. discriminate.
  - repeat (split; [vm_compute; reflexivity|]). vm_compute. discriminate.
  - repeat (split; [vm_compute; reflexivity|]). vm_compute. reflexivity.
Qed.

(** C4, at the absent request: every send variant raises, before any
    call to a collaborator and before any span is opened, but what it
    raises is the [AttributeError] of [start_tracing_span] reading
    [url_template] of [None], and not [REQUEST_IS_NULL]: the check for an
    absent request comes after that read. *)
Theorem send_without_request_raises_attribute_error env self v
  (em : ErrorMap) h :
  send env self v None em h
  = (Raise (AttributeError "'NoneType' object has no attribute 'url_template'"),
     h, [])
  /\ outcome (send env self v None em h) <> Raise REQUEST_IS_NULL.
Proof.
  split; [destruct v; reflexivity|]. destruct v; discriminate.
Qed.

(** C1, at the challenge of the spec's example, whose claims value ends in
    an equals sign, when the server answers every request with it: each
    send variant runs the cycle twice and returns the second 401 to
    failure resolution, but the claims it hands to the authentication
    provider are the value without its last character. And at a claims
    value that is one equals sign, the claims cut out are empty: the second
    cycle runs with an empty context and is challenged again, and so on
    until the recursion limit (three, here). *)
Theorem claims_retry_cuts_the_value v :
  response_claims_of (challenge claims_value) = Some "eyAiY2xhaW1zIjogIngiIH0"
  /\ io (send (scripted [] (challenged claims_value)) adapter v
           (Some users_request) ∅ [])
     = (Raise (no_error_class_registered (challenged claims_value)),
        (cycle users_request (send_name v) ∅
         ++ cycle users_request "retry_cae_response_if_required"
              {["claims" := "eyAiY2xhaW1zIjogIngiIH0"]})%list)
  /\ ({["claims" := "eyAiY2xhaW1zIjogIngiIH0"]} : gmap string string)
     <> {["claims" := claims_value]}
  /\ response_claims_of (challenge "=") = Some EmptyString
  /\ io (send (scripted [] (challenged "=")) (adapter_with_limit 3) v
           (Some users_request) ∅ [])
     = (Raise RecursionError,
        (cycle users_request (send_name v) ∅
         ++ cycle users_request "retry_cae_response_if_required" ∅
         ++ cycle users_request "retry_cae_response_if_required" ∅)%list).
Proof.
  split; [vm_compute; reflexivity|].
  split; [destruct v; vm_compute; reflexivity|].
  split; [vm_compute; discriminate|].
  split; [vm_compute; reflexivity|].
  destruct v; vm_compute; reflexivity.
Qed.

End SendOperations.

(** ** More on the claims retry *)

Module RetryProperties.
Import PyStr Re Httpx Model Comp HttpxRequestAdapter Phases Scenario CompFacts.
Import PyStrFacts Dispatch ClaimsExtraction.
#[local] Open Scope comp_scope.

(** X1: when the response of a dispatch cycle has no WWW-Authenticate header
    (or an empty one), [get_http_response_message] returns that response
    after this one cycle, whatever its status and whatever claims were
    supplied: a 401 without the header is not retried. *)
Theorem unchallenged_response_is_final env self depth ri sp claims h ri1 resp h1
    :
  io (dispatch_once env self ri sp claims h) = (Return (ri1, resp), h1) ->
  option_truthy (headers_get (headers resp) "WWW-Authenticate") = false ->
  io (get_http_response_message_at env self (S depth) ri sp claims h) =
  (Return (ri1, resp), h1).
Proof.
  intros Hd Hh.
  rewrite io_get_http_response_message_at_S, io_bind, Hd. cbn [fst snd].
  apply io_retry_pass. unfold RESPONSE_AUTH_HEADER. rewrite Hh.
  apply andb_false_r.
Qed.

Lemma unchallenged_response_is_final_witness :
  io (dispatch_once (scripted [] unauthorized) adapter users_request (span_of
      "send_async")
        EmptyString [])
  = (Return (based users_request, unauthorized),
     cycle users_request "send_async" ∅)
  /\ option_truthy (headers_get (headers unauthorized) "WWW-Authenticate")
     = false
  /\ io (get_http_response_message_at (scripted [] unauthorized) adapter 1
           users_request (span_of "send_async") EmptyString [])
     = (Return (based users_request, unauthorized),
        cycle users_request "send_async" ∅).
Proof.
  assert (H1 :
    io (dispatch_once (scripted [] unauthorized) adapter users_request (span_of
        "send_async")
          EmptyString [])
    = (Return (based users_request, unauthorized),
       cycle users_request "send_async" ∅)) by (vm_compute; reflexivity).
  assert (H2 :
    option_truthy (headers_get (headers unauthorized) "WWW-Authenticate")
    = false) by reflexivity.
  split; [exact H1|]. split; [exact H2|].
  exact (unchallenged_response_is_final (scripted [] unauthorized) adapter 0
           users_request (span_of "send_async") EmptyString [] _ _ _ H1 H2).
Defined.

(** X2: a call of [get_http_response_message] with claims that are not
    empty is exactly one dispatch cycle: its response is returned, or its
    failure raised, and [retry_cae_response_if_required] never retries
    it. *)
Theorem attempt_with_claims_is_final env self depth ri sp claims h :
  truthy claims = true ->
  io (get_http_response_message_at env self (S depth) ri sp claims h) =
  io (dispatch_once env self ri sp claims h).
Proof.
  intros Ht. rewrite io_get_http_response_message_at_S, io_bind.
  destruct (io (dispatch_once env self ri sp claims h)) as [[[ri1 resp]|e] h1];
    [|reflexivity].
  cbn [fst snd]. apply io_retry_pass. rewrite Ht. cbn [negb].
  now rewrite andb_false_r.
Qed.

Lemma attempt_with_claims_is_final_witness :
  truthy "abc" = true
  /\ io (get_http_response_message_at (scripted [] (challenged "abc")) adapter 1
           users_request (span_of "send_async") "abc" [])
     = (Return (based users_request, challenged "abc"),
        cycle users_request "send_async" {["claims" := "abc"]}).
Proof.
  assert (H1 : truthy "abc" = true) by reflexivity.
  split; [exact H1|].
  rewrite (attempt_with_claims_is_final (scripted [] (challenged "abc")) adapter
             0 users_request (span_of "send_async") "abc" [] H1).
  vm_compute. reflexivity.
Defined.

(** X3: when the first response is a 401 with a Bearer challenge from
    which claims that are not empty are cut out, and two nested calls are
    allowed, [get_http_response_message] behaves as the first cycle
    followed by one second cycle run with those claims, for the request
    information and the history the first cycle left; the second response
    is returned whatever its status. *)
Theorem challenged_once_retried_once env self depth ri sp h ri1 resp h1 value
  claims :
  io (dispatch_once env self ri sp EmptyString h) = (Return (ri1, resp), h1) ->
  status_code resp = 401 ->
  headers_get (headers resp) "WWW-Authenticate" = Some value ->
  is_bearer value = true ->
  response_claims_of value = Some claims ->
  truthy claims = true ->
  io (get_http_response_message_at env self (S (S depth)) ri sp EmptyString h) =
  io (dispatch_once env self ri1
        (parent_span_of env "retry_cae_response_if_required" ri1) claims h1).
Proof. apply io_retry_once. Qed.

Lemma challenged_once_retried_once_witness :
  io (dispatch_once (scripted [challenged "abc"] ok_json) adapter users_request
        (span_of "send_async") EmptyString [])
  = (Return (based users_request, challenged "abc"),
     cycle users_request "send_async" ∅)
  /\ status_code (challenged "abc") = 401
  /\ headers_get (headers (challenged "abc")) "WWW-Authenticate"
     = Some (challenge "abc")
  /\ is_bearer (challenge "abc") = true
  /\ response_claims_of (challenge "abc") = Some ("abc" +:+ String dquote
      EmptyString)
  /\ truthy ("abc" +:+ String dquote EmptyString) = true
  /\ io (get_http_response_message_at (scripted [challenged "abc"] ok_json)
           adapter 2 users_request (span_of "send_async") EmptyString [])
     = (Return (based (based users_request), ok_json),
        (cycle users_request "send_async" ∅
         ++ cycle (based users_request) "retry_cae_response_if_required"
              {["claims" := "abc" +:+ String dquote EmptyString]})%list).
Proof.
  assert (H1 :
    io (dispatch_once (scripted [challenged "abc"] ok_json) adapter
          users_request (span_of "send_async") EmptyString [])
    = (Return (based users_request, challenged "abc"),
       cycle users_request "send_async" ∅)) by (vm_compute; reflexivity).
  assert (H2 : status_code (challenged "abc") = 401) by reflexivity.
  assert (H3 : headers_get (headers (challenged "abc")) "WWW-Authenticate"
               = Some (challenge "abc")) by (vm_compute; reflexivity).
  assert (H4 : is_bearer (challenge "abc") = true) by (vm_compute; reflexivity).
  assert (H5 : response_claims_of (challenge "abc")
               = Some ("abc" +:+ String dquote EmptyString))
    by (vm_compute; reflexivity).
  assert (H6 : truthy ("abc" +:+ String dquote EmptyString) = true)
    by reflexivity.
  split; [exact H1|]. split; [exact H2|]. split; [exact H3|].
  split; [exact H4|]. split; [exact H5|]. split; [exact H6|].
  rewrite (challenged_once_retried_once (scripted [challenged "abc"] ok_json)
             adapter 0 users_request (span_of "send_async") [] _ _ _ _ _ H1 H2
                 H3 H4 H5 H6).
  vm_compute. reflexivity.
Defined.

(** X4: whenever the pattern matches, the claims that
    [retry_cae_response_if_required] cuts out of the match are not the text
    between the double quotes of the match: the closing quote is kept, or
    the text is cut at an equals sign followed by a double quote. *)
Theorem extracted_claims_differ_from_quoted_value value body :
  search_claims value
  = Some (claims_open +:+ body +:+ String dquote EmptyString) ->
  response_claims_of value <> Some body.
Proof. apply response_claims_not_the_value. Qed.

Lemma extracted_claims_differ_from_quoted_value_witness :
  search_claims (challenge "abc")
  = Some (claims_open +:+ "abc" +:+ String dquote EmptyString)
  /\ response_claims_of (challenge "abc") <> Some "abc".
Proof.
  assert (H1 : search_claims (challenge "abc")
               = Some (claims_open +:+ "abc" +:+ String dquote EmptyString))
    by (vm_compute; reflexivity).
  split; [exact H1|].
  exact (extracted_claims_differ_from_quoted_value (challenge "abc") "abc" H1).
Defined.

End RetryProperties.

(** ** More on failure resolution and the root parse node *)

Module ResolutionProperties.
Import PyStr Re Httpx Model Comp HttpxRequestAdapter Phases Scenario CompFacts.
Import PyStrFacts ContentType FailureResolution.
#[local] Open Scope comp_scope.

Lemma get_response_content_type_untyped r :
  (forall v, headers_get (headers r) "content-type" = Some v ->
             before_first ";" v = EmptyString) ->
  option_truthy (get_response_content_type r) = false.
Proof.
  intros H. rewrite get_response_content_type_spec.
  destruct (headers_get (headers r) "content-type") as [[|c s]|];
    try reflexivity.
  rewrite (H _ eq_refl). reflexivity.
Qed.

(** X5: [get_root_parse_node] raises [DeserializationError], without a
    call to the parse node factory, when the response has no Content-Type
    header or one whose value is empty before its first semicolon. *)
Theorem root_parse_node_needs_content_type env r ps ats h :
  (forall v, headers_get (headers r) "content-type" = Some v ->
             before_first ";" v = EmptyString) ->
  io (get_root_parse_node env r ps ats h) =
  (Raise (DeserializationError
            "No response content type found for deserialization"), h).
Proof.
  intros H. apply get_response_content_type_untyped in H.
  rewrite io_get_root_parse_node.
  destruct (get_response_content_type r) as [ct|]; [|reflexivity].
  cbn [option_truthy] in H. rewrite H. reflexivity.
Qed.

Lemma root_parse_node_needs_content_type_witness :
  (forall v, headers_get (headers parameters_only) "content-type" = Some v ->
             before_first ";" v = EmptyString)
  /\ io (get_root_parse_node (scripted [] ok_json) parameters_only a_span
           a_span [])
     = (Raise (DeserializationError
                 "No response content type found for deserialization"), []).
Proof.
  assert (H1 : forall v,
             headers_get (headers parameters_only) "content-type" = Some v ->
             before_first ";" v = EmptyString).
  { intros v Hv. vm_compute in Hv. injection Hv as <-. reflexivity. }
  split; [exact H1|].
  exact (root_parse_node_needs_content_type (scripted [] ok_json)
           parameters_only a_span a_span [] H1).
Defined.

(** X6: otherwise [get_root_parse_node] makes exactly one call to the
    parse node factory, with the header value before its first semicolon in
    lower case and with the body of the response, and returns or raises
    what the factory returns or raises. *)
Theorem root_parse_node_by_media_type env r ps ats h v :
  headers_get (headers r) "content-type" = Some v ->
  before_first ";" v <> EmptyString ->
  io (get_root_parse_node env r ps ats h) =
  (factory_get_root_parse_node env h (lower (before_first ";" v)) (content r),
   (h ++ [ParseRoot (lower (before_first ";" v)) (content r)])%list).
Proof.
  intros Hv Hne. rewrite io_get_root_parse_node.
  rewrite get_response_content_type_spec, Hv.
  destruct v as [|c s]; [contradiction|].
  destruct (before_first ";" (String c s)) as [|c' s'] eqn:Hb; [contradiction|].
  reflexivity.
Qed.

Lemma root_parse_node_by_media_type_witness :
  headers_get (headers not_found) "content-type"
  = Some "application/json; charset=utf-8"
  /\ before_first ";" "application/json; charset=utf-8" <> EmptyString
  /\ io (get_root_parse_node (scripted [] ok_json) not_found a_span a_span [])
     = (Return (Some "{}"), [ParseRoot "application/json" "{}"]).
Proof.
  assert (H1 : headers_get (headers not_found) "content-type"
               = Some "application/json; charset=utf-8")
    by (vm_compute; reflexivity).
  assert (H2 : before_first ";" "application/json; charset=utf-8"
               <> EmptyString) by (vm_compute; discriminate).
  split; [exact H1|]. split; [exact H2|].
  exact (root_parse_node_by_media_type (scripted [] ok_json) not_found a_span
           a_span [] _ H1 H2).
Defined.

(** An entry for the exact status is used on every failed status. *)
Lemma io_throw_failed_responses_exact env r (em : ErrorMap) ps ats h f :
  is_success r = false ->
  em !! pretty (status_code r) = Some f ->
  io (throw_failed_responses env r em ps ats h) =
  error_materialization env r (Some f) h.
Proof.
  intros Hfail Hexact. unfold throw_failed_responses.
  rewrite Hfail. io_simpl.
  rewrite bool_decide_eq_false_2
    by (intros ->; rewrite lookup_empty in Hexact; discriminate).
  unfold contains, getitem. rewrite Hexact.
  cbn [negb andb orb]. io_simpl. io_materialize.
Qed.

Lemma error_materialization_raises env r ec h :
  exists e, fst (error_materialization env r ec h) = Raise e.
Proof.
  unfold error_materialization.
  destruct (get_response_content_type r) as [ct|]; [|eauto].
  destruct (truthy ct); [|eauto].
  destruct (factory_get_root_parse_node env h ct (content r)) as [[n|]|e];
    [|eauto|eauto].
  destruct (node_method env _ n (GetObjectValue ec)) as [v|e]; eauto.
Qed.

(** X7: on a response whose status is not in [200,300),
    [throw_failed_responses] never returns: for every error map and
    whatever the collaborators do, it raises. *)
Theorem throw_failed_responses_always_raises env r (em : ErrorMap) ps ats h :
  ~ (200 <= status_code r < 300) ->
  exists e, outcome (throw_failed_responses env r em ps ats h) = Raise e.
Proof.
  intros Hfail. apply is_success_false in Hfail. rewrite outcome_io.
  destruct (decide (em = ∅)) as [->|Hem].
  { rewrite io_throw_failed_responses_empty by exact Hfail. eauto. }
  destruct (em !! pretty (status_code r)) as [f|] eqn:Hexact.
  { rewrite (io_throw_failed_responses_exact _ _ _ _ _ _ f) by assumption.
    apply error_materialization_raises. }
  destruct (decide (400 <= status_code r < 600)) as [Hin|Hout].
  - rewrite io_throw_failed_responses_4xx_5xx by exact Hin.
    destruct (registered_error_class _ _); [|eauto].
    apply error_materialization_raises.
  - rewrite io_throw_failed_responses_elsewhere by assumption.
    apply error_materialization_raises.
Qed.

Lemma throw_failed_responses_always_raises_witness :
  ~ (200 <= status_code not_found < 300)
  /\ exists e,
       outcome (throw_failed_responses (scripted [] ok_json) not_found
                  exact_and_class a_span a_span []) = Raise e.
Proof.
  assert (H1 : ~ (200 <= status_code not_found < 300)) by (simpl; lia).
  split; [exact H1|].
  exact (throw_failed_responses_always_raises (scripted [] ok_json) not_found
           exact_and_class a_span a_span [] H1).
Defined.

(** X8: when the error map has an entry for the exact status of a failed
    response, whatever its range, that entry is the error class the body is
    materialized with; no class wildcard is consulted. *)
Theorem exact_status_entry_always_used env r (em : ErrorMap) ps ats h f :
  ~ (200 <= status_code r < 300) ->
  em !! pretty (status_code r) = Some f ->
  io (throw_failed_responses env r em ps ats h) =
  error_materialization env r (Some f) h.
Proof.
  intros Hfail. apply io_throw_failed_responses_exact.
  now apply is_success_false.
Qed.

Lemma exact_status_entry_always_used_witness :
  ~ (200 <= status_code moved_json < 300)
  /\ moved_registered !! pretty (status_code moved_json) = Some "Moved"
  /\ io (throw_failed_responses (erring [] ok_json) moved_json moved_registered
           a_span a_span [])
     = (Raise
          (RaisedAPIError
             {| error_class_name := "Moved"; message := "{}";
                response_status_code := Some 302;
                response_headers :=
                  Some [("Content-Type", "application/json")] |}),
        [ParseRoot "application/json" "{}";
         NodeCall "{}" (GetObjectValue (Some "Moved"))]).
Proof.
  assert (H1 : ~ (200 <= status_code moved_json < 300)) by (simpl; lia).
  assert (H2 : moved_registered !! pretty (status_code moved_json)
               = Some "Moved") by (vm_compute; reflexivity).
  split; [exact H1|]. split; [exact H2|].
  exact (exact_status_entry_always_used (erring [] ok_json) moved_json
           moved_registered a_span a_span [] "Moved" H1 H2).
Defined.

(** X9: on a status in [400,600) the error class is looked up as exact
    code first, then the wildcard of the range (4XX or 5XX); when neither
    is registered the generic error is raised without reading the body,
    even if the map has other entries. *)
Theorem error_class_lookup_4xx_5xx env r (em : ErrorMap) ps ats h :
  400 <= status_code r < 600 ->
  io (throw_failed_responses env r em ps ats h) =
  match registered_error_class (status_code r) em with
  | Some f => error_materialization env r (Some f) h
  | None => (Raise (no_error_class_registered r), h)
  end.
Proof. apply io_throw_failed_responses_4xx_5xx. Qed.

Lemma error_class_lookup_4xx_5xx_witness :
  (400 <= status_code server_error < 600)
  /\ (io (throw_failed_responses (scripted [] ok_json) server_error
      exact_and_class a_span a_span []) = (Raise (no_error_class_registered
      server_error), [])).
Proof.
  assert (H1 : 400 <= status_code server_error < 600)
    by (simpl; lia).
  split; [exact H1|].
  exact (error_class_lookup_4xx_5xx (scripted [] ok_json) server_error
      exact_and_class a_span a_span [] H1).
Defined.

Lemma error_materialization_with_node env r ec h v n :
  headers_get (headers r) "content-type" = Some v ->
  before_first ";" v <> EmptyString ->
  factory_get_root_parse_node env h (lower (before_first ";" v)) (content r)
  = Return (Some n) ->
  error_materialization env r ec h =
  let h1 := (h ++ [ParseRoot (lower (before_first ";" v)) (content r)])%list in
  let h2 := (h1 ++ [NodeCall n (GetObjectValue ec)])%list in
  match node_method env h1 n (GetObjectValue ec) with
  | Return error =>
      (Raise
         (RaisedAPIError
            match as_api_error error with
            | Some e =>
                {| error_class_name := error_class_name e;
                   message := message e;
                   response_status_code := Some (status_code r);
                   response_headers := Some (headers r) |}
            | None =>
                generic_api_error
                  ("Unexpected error type: " +:+ type_repr env error)
                  (status_code r) (headers r)
            end), h2)
  | Raise e => (Raise e, h2)
  end.
Proof.
  intros Hv Hne Hf. unfold error_materialization.
  rewrite get_response_content_type_spec, Hv.
  destruct v as [|c s]; [contradiction|].
  destruct (before_first ";" (String c s)) as [|c' s'] eqn:Hb; [contradiction|].
  cbn [lower truthy]. cbn [lower] in Hf. rewrite Hf. reflexivity.
Qed.

(** X10: when a registered error class materializes an [APIError]
    from the body, that error is raised with its class and message kept
    and with the status code and the headers of the response written over
    its own. *)
Theorem typed_error_carries_status_and_headers env r (em : ErrorMap) ps ats h
  f v n e :
  400 <= status_code r < 600 ->
  registered_error_class (status_code r) em = Some f ->
  headers_get (headers r) "content-type" = Some v ->
  before_first ";" v <> EmptyString ->
  factory_get_root_parse_node env h (lower (before_first ";" v)) (content r)
  = Return (Some n) ->
  node_method env
    (h ++ [ParseRoot (lower (before_first ";" v)) (content r)])%list n
    (GetObjectValue (Some f))
  = Return (VError e) ->
  io (throw_failed_responses env r em ps ats h) =
  (Raise
     (RaisedAPIError
        {| error_class_name := error_class_name e;
           message := message e;
           response_status_code := Some (status_code r);
           response_headers := Some (headers r) |}),
   (h ++ [ParseRoot (lower (before_first ";" v)) (content r);
          NodeCall n (GetObjectValue (Some f))])%list).
Proof.
  intros Hr Hf Hv Hne Hn Hm.
  rewrite io_throw_failed_responses_4xx_5xx by exact Hr. rewrite Hf.
  rewrite (error_materialization_with_node _ _ _ _ v n) by assumption.
  cbv zeta. rewrite Hm. cbn [as_api_error]. rewrite <- List.app_assoc.
  reflexivity.
Qed.

Lemma typed_error_carries_status_and_headers_witness :
  400 <= status_code not_found < 600
  /\ registered_error_class (status_code not_found) exact_and_class = Some "F1"
  /\ headers_get (headers not_found) "content-type"
     = Some "application/json; charset=utf-8"
  /\ before_first ";" "application/json; charset=utf-8" <> EmptyString
  /\ factory_get_root_parse_node (erring [] ok_json) []
       (lower (before_first ";" "application/json; charset=utf-8"))
       (content not_found)
     = Return (Some "{}")
  /\ node_method (erring [] ok_json)
       ([] ++ [ParseRoot
                 (lower (before_first ";" "application/json; charset=utf-8"))
                 (content not_found)])%list "{}" (GetObjectValue (Some "F1"))
     = Return (VError {| error_class_name := "F1"; message := "{}";
                         response_status_code := None;
                         response_headers := None |})
  /\ io (throw_failed_responses (erring [] ok_json) not_found exact_and_class
           a_span a_span [])
     = (Raise
          (RaisedAPIError
             {| error_class_name := "F1"; message := "{}";
                response_status_code := Some 404;
                response_headers :=
                  Some [("Content-Type", "application/json; charset=utf-8")]
                      |}),
        [ParseRoot "application/json" "{}";
         NodeCall "{}" (GetObjectValue (Some "F1"))]).
Proof.
  assert (H1 : 400 <= status_code not_found < 600) by (simpl; lia).
  assert (H2 : registered_error_class (status_code not_found) exact_and_class
               = Some "F1") by (vm_compute; reflexivity).
  assert (H3 : headers_get (headers not_found) "content-type"
               = Some "application/json; charset=utf-8")
    by (vm_compute; reflexivity).
  assert (H4 : before_first ";" "application/json; charset=utf-8"
               <> EmptyString) by (vm_compute; discriminate).
  assert (H5 :
    factory_get_root_parse_node (erring [] ok_json) []
      (lower (before_first ";" "application/json; charset=utf-8"))
      (content not_found)
    = Return (Some "{}")) by (vm_compute; reflexivity).
  assert (H6 :
    node_method (erring [] ok_json)
      ([] ++ [ParseRoot
                (lower (before_first ";" "application/json; charset=utf-8"))
                (content not_found)])%list "{}" (GetObjectValue (Some "F1"))
    = Return (VError {| error_class_name := "F1"; message := "{}";
                        response_status_code := None;
                        response_headers := None |})) by reflexivity.
  split; [exact H1|]. split; [exact H2|]. split; [exact H3|].
  split; [exact H4|]. split; [exact H5|]. split; [exact H6|].
  exact (typed_error_carries_status_and_headers (erring [] ok_json) not_found
           exact_and_class a_span a_span [] _ _ _ _ H1 H2 H3 H4 H5 H6).
Defined.

(** X11: when what the registered error class materializes is no
    [APIError], a generic [APIError] is raised in its place, with the
    message Unexpected error type and the type, and the status code and
    headers of the response. *)
Theorem untyped_error_object_becomes_generic env r (em : ErrorMap) ps ats h
  f v n error :
  400 <= status_code r < 600 ->
  registered_error_class (status_code r) em = Some f ->
  headers_get (headers r) "content-type" = Some v ->
  before_first ";" v <> EmptyString ->
  factory_get_root_parse_node env h (lower (before_first ";" v)) (content r)
  = Return (Some n) ->
  node_method env
    (h ++ [ParseRoot (lower (before_first ";" v)) (content r)])%list n
    (GetObjectValue (Some f))
  = Return error ->
  as_api_error error = None ->
  io (throw_failed_responses env r em ps ats h) =
  (Raise
     (RaisedAPIError
        {| error_class_name := "APIError";
           message := "Unexpected error type: " +:+ type_repr env error;
           response_status_code := Some (status_code r);
           response_headers := Some (headers r) |}),
   (h ++ [ParseRoot (lower (before_first ";" v)) (content r);
          NodeCall n (GetObjectValue (Some f))])%list).
Proof.
  intros Hr Hf Hv Hne Hn Hm Ha.
  rewrite io_throw_failed_responses_4xx_5xx by exact Hr. rewrite Hf.
  rewrite (error_materialization_with_node _ _ _ _ v n) by assumption.
  cbv zeta. rewrite Hm, Ha. rewrite <- List.app_assoc. reflexivity.
Qed.

Lemma untyped_error_object_becomes_generic_witness :
  400 <= status_code not_found < 600
  /\ registered_error_class (status_code not_found) {["4XX" := "F2"]}
     = Some "F2"
  /\ headers_get (headers not_found) "content-type"
     = Some "application/json; charset=utf-8"
  /\ before_first ";" "application/json; charset=utf-8" <> EmptyString
  /\ factory_get_root_parse_node (scripted [] ok_json) []
       (lower (before_first ";" "application/json; charset=utf-8"))
       (content not_found)
     = Return (Some "{}")
  /\ node_method (scripted [] ok_json)
       ([] ++ [ParseRoot
                 (lower (before_first ";" "application/json; charset=utf-8"))
                 (content not_found)])%list "{}" (GetObjectValue (Some "F2"))
     = Return (VModel "F2" "{}")
  /\ as_api_error (VModel "F2" "{}") = None
  /\ io (throw_failed_responses (scripted [] ok_json) not_found
           {["4XX" := "F2"]} a_span a_span [])
     = (Raise
          (RaisedAPIError
             {| error_class_name := "APIError";
                message := "Unexpected error type: <class 'object'>";
                response_status_code := Some 404;
                response_headers :=
                  Some [("Content-Type", "application/json; charset=utf-8")]
                      |}),
        [ParseRoot "application/json" "{}";
         NodeCall "{}" (GetObjectValue (Some "F2"))]).
Proof.
  assert (H1 : 400 <= status_code not_found < 600) by (simpl; lia).
  assert (H2 : registered_error_class (status_code not_found)
                 {["4XX" := "F2"]} = Some "F2") by (vm_compute; reflexivity).
  assert (H3 : headers_get (headers not_found) "content-type"
               = Some "application/json; charset=utf-8")
    by (vm_compute; reflexivity).
  assert (H4 : before_first ";" "application/json; charset=utf-8"
               <> EmptyString) by (vm_compute; discriminate).
  assert (H5 :
    factory_get_root_parse_node (scripted [] ok_json) []
      (lower (before_first ";" "application/json; charset=utf-8"))
      (content not_found)
    = Return (Some "{}")) by (vm_compute; reflexivity).
  assert (H6 :
    node_method (scripted [] ok_json)
      ([] ++ [ParseRoot
                (lower (before_first ";" "application/json; charset=utf-8"))
                (content not_found)])%list "{}" (GetObjectValue (Some "F2"))
    = Return (VModel "F2" "{}")) by reflexivity.
  assert (H7 : as_api_error (VModel "F2" "{}") = None) by reflexivity.
  split; [exact H1|]. split; [exact H2|]. split; [exact H3|].
  split; [exact H4|]. split; [exact H5|]. split; [exact H6|].
  split; [exact H7|].
  exact (untyped_error_object_becomes_generic (scripted [] ok_json) not_found
           {["4XX" := "F2"]} a_span a_span [] _ _ _ _ H1 H2 H3 H4 H5 H6 H7).
Defined.

End ResolutionProperties.

(** ** More on the send operations *)

Module SendProperties.
Import PyStr Re Httpx Model Comp HttpxRequestAdapter Phases Scenario CompFacts.
Import PyStrFacts ContentType FailureResolution Dispatch.
#[local] Open Scope comp_scope.

Lemma io_get_response_handler_none self ri h :
  outcome (get_response_handler self ri h) = Return None ->
  io (get_response_handler self ri h) = (Return None, h).
Proof.
  unfold get_response_handler, outcome, io.
  destruct (request_options ri !! response_handler_key self) as [[]|];
    cbn; congruence.
Qed.

(** The start of a send of a known variant, up to the response handler
    lookup, for a dispatch that returned and a request without handler. *)
Ltac enter_send H Hh :=
  cbn [send send_name];
  unfold send_async, send_collection_async, send_collection_of_primitive_async,
    send_primitive_async, send_no_response_content_async;
  rewrite start_tracing_span_some; io_simpl; io_next;
  cbn [send_name] in H; rewrite H; cbn [fst snd];
  io_next; rewrite (io_get_response_handler_none _ _ _ Hh).

Ltac pass_resolution Hok :=
  io_next; rewrite Hok; cbn [io fst].

Lemma io_root env' resp ps ats h1 ct root :
  get_response_content_type resp = Some ct ->
  truthy ct = true ->
  factory_get_root_parse_node env' h1 ct (content resp) = Return root ->
  io (get_root_parse_node env' resp ps ats h1) =
  (Return root, (h1 ++ [ParseRoot ct (content resp)])%list).
Proof.
  intros Hc Ht Hf. rewrite io_get_root_parse_node, Hc, Ht, Hf. reflexivity.
Qed.

Section WithCollaborators.
Variable env : Collaborators.
Variable self : Adapter.

(** X12: for every send variant, a failure of the first dispatch cycle
    (of the authentication provider, of the URL expansion, of the request
    builder or of the transport) is raised unchanged by the send, and
    nothing is called after it: no retry, no handler, no resolution. *)
Theorem dispatch_failure_propagates v ri (em : ErrorMap) h e h1 :
  recursion_limit self <> 0%nat ->
  io (dispatch_once env self ri (parent_span_of env (send_name v) ri)
        EmptyString h) = (Raise e, h1) ->
  io (send env self v (Some ri) em h) = (Raise e, h1).
Proof.
  intros Hl Hd. apply io_send_raise. unfold get_http_response_message.
  destruct (recursion_limit self) as [|depth]; [contradiction|].
  rewrite io_get_http_response_message_at_S, io_bind, Hd. reflexivity.
Qed.

(** X13: for every send variant without a response handler, what
    [throw_failed_responses] raises for the response is what the send
    raises, and the send makes no call after those of failure resolution:
    a failed response is never deserialized as a result. *)
Theorem failure_resolution_precedes_deserialization v ri (em : ErrorMap) h ri1
  resp h1 e :
  io (get_http_response_message env self ri
        (parent_span_of env (send_name v) ri) EmptyString h)
  = (Return (ri1, resp), h1) ->
  outcome (get_response_handler self ri1 h1) = Return None ->
  outcome (throw_failed_responses env resp em
             (parent_span_of env (send_name v) ri)
             (parent_span_of env (send_name v) ri) h1) = Raise e ->
  io (send env self v (Some ri) em h) =
  (Raise e,
   history (throw_failed_responses env resp em
              (parent_span_of env (send_name v) ri)
              (parent_span_of env (send_name v) ri) h1)).
Proof.
  intros H Hh He. rewrite outcome_io in He. rewrite history_io.
  destruct v; enter_send H Hh; io_next; cbn [send_name] in He |- *;
    destruct (io (throw_failed_responses _ _ _ _ _ _)) as [[[]|e'] h2];
    cbn [fst snd] in *; congruence.
Qed.

(** X14: [send_primitive_async] for the kind bytes returns the body of a
    2xx response other than 204 as it is, without a call to the parse node
    factory and whatever the content type is. *)
Theorem bytes_are_returned_unparsed ri (em : ErrorMap) h ri1 resp h1 :
  io (get_http_response_message env self ri
        (parent_span_of env "send_primitive_async" ri) EmptyString h)
  = (Return (ri1, resp), h1) ->
  outcome (get_response_handler self ri1 h1) = Return None ->
  200 <= status_code resp < 300 ->
  status_code resp <> 204 ->
  io (send env self (SendPrimitive "bytes") (Some ri) em h) =
  (Return (VBytes (content resp)), h1).
Proof.
  intros H Hh Hs Hn.
  assert (Hok : forall ps ats,
             throw_failed_responses env resp em ps ats h1 = (Return tt, h1,
                 [])).
  { intros. apply throw_failed_responses_success, is_success_iff. lia. }
  enter_send H Hh. pass_resolution Hok.
  unfold _should_return_none.
  replace (status_code resp =? 204) with false by lia. reflexivity.
Qed.

(** X15: [send_primitive_async] for a kind that is none of bytes, str,
    int, float, bool and datetime raises [TypeError], and it does so only
    after the body has been handed to the parse node factory. *)
Theorem unknown_primitive_kind_raises_after_parsing response_type ri
  (em : ErrorMap) h ri1 resp h1 ct root :
  io (get_http_response_message env self ri
        (parent_span_of env "send_primitive_async" ri) EmptyString h)
  = (Return (ri1, resp), h1) ->
  outcome (get_response_handler self ri1 h1) = Return None ->
  200 <= status_code resp < 300 ->
  status_code resp <> 204 ->
  response_type <> "bytes" ->
  known_primitive response_type = false ->
  get_response_content_type resp = Some ct ->
  truthy ct = true ->
  factory_get_root_parse_node env h1 ct (content resp) = Return root ->
  io (send env self (SendPrimitive response_type) (Some ri) em h) =
  (Raise (TypeError ("Unable to deserialize type: "
                     +:+ repr_str env response_type)),
   (h1 ++ [ParseRoot ct (content resp)])%list).
Proof.
  intros H Hh Hs Hn Hb Hk Hc Ht Hf.
  assert (Hok : forall ps ats,
             throw_failed_responses env resp em ps ats h1 = (Return tt, h1,
                 [])).
  { intros. apply throw_failed_responses_success, is_success_iff. lia. }
  unfold known_primitive in Hk.
  apply orb_false_elim in Hk as [Hk Hdatetime].
  apply orb_false_elim in Hk as [Hk Hbool].
  apply orb_false_elim in Hk as [Hk Hfloat].
  apply orb_false_elim in Hk as [Hstr Hint].
  apply String.eqb_neq in Hb.
  enter_send H Hh. pass_resolution Hok.
  unfold _should_return_none.
  replace (status_code resp =? 204) with false by lia.
  rewrite Hb. io_simpl. io_next.
  rewrite (io_root _ _ _ _ _ ct root) by assumption.
  unfold read_if. rewrite Hstr, Hint, Hfloat, Hbool, Hdatetime.
  io_simpl. reflexivity.
Qed.

(** X16: [send_primitive_async] for the kind str, when the root node
    reads the value as [None], raises the same [TypeError] instead of
    returning [None]. *)
Theorem null_primitive_raises ri (em : ErrorMap) h ri1 resp h1 ct node :
  io (get_http_response_message env self ri
        (parent_span_of env "send_primitive_async" ri) EmptyString h)
  = (Return (ri1, resp), h1) ->
  outcome (get_response_handler self ri1 h1) = Return None ->
  200 <= status_code resp < 300 ->
  status_code resp <> 204 ->
  get_response_content_type resp = Some ct ->
  truthy ct = true ->
  factory_get_root_parse_node env h1 ct (content resp) = Return (Some node) ->
  node_method env (h1 ++ [ParseRoot ct (content resp)])%list node GetStrValue
  = Return VNone ->
  io (send env self (SendPrimitive "str") (Some ri) em h) =
  (Raise (TypeError ("Unable to deserialize type: " +:+ repr_str env "str")),
   (h1 ++ [ParseRoot ct (content resp); NodeCall node GetStrValue])%list).
Proof.
  intros H Hh Hs Hn Hc Ht Hf Hv.
  assert (Hok : forall ps ats,
             throw_failed_responses env resp em ps ats h1 = (Return tt, h1,
                 [])).
  { intros. apply throw_failed_responses_success, is_success_iff. lia. }
  enter_send H Hh. pass_resolution Hok.
  unfold _should_return_none.
  replace (status_code resp =? 204) with false by lia.
  cbn [String.eqb Ascii.eqb Bool.eqb]. io_simpl. io_next.
  rewrite (io_root _ _ _ _ _ ct (Some node)) by assumption.
  unfold read_if, node_call. cbn [String.eqb Ascii.eqb Bool.eqb].
  io_simpl. rewrite Hv. io_simpl. rewrite <- List.app_assoc. reflexivity.
Qed.

(** X17: [send_no_response_content_async] returns [None] for every 2xx
    response, without a call after the dispatch. *)
Theorem no_response_content_returns_none ri (em : ErrorMap) h ri1 resp h1 :
  io (get_http_response_message env self ri
        (parent_span_of env "send_no_response_content_async" ri) EmptyString h)
  = (Return (ri1, resp), h1) ->
  outcome (get_response_handler self ri1 h1) = Return None ->
  200 <= status_code resp < 300 ->
  io (send env self SendNoResponseContent (Some ri) em h) = (Return VNone, h1).
Proof.
  intros H Hh Hs.
  assert (Hok : forall ps ats,
             throw_failed_responses env resp em ps ats h1 = (Return tt, h1,
                 [])).
  { intros. apply throw_failed_responses_success, is_success_iff. lia. }
  enter_send H Hh. pass_resolution Hok. reflexivity.
Qed.

(** X18: [send_async] returns [None] when the parse node factory finds
    no root node. *)
Theorem object_of_missing_root_is_none parsable_factory ri (em : ErrorMap) h
  ri1 resp h1 ct :
  io (get_http_response_message env self ri
        (parent_span_of env "send_async" ri) EmptyString h)
  = (Return (ri1, resp), h1) ->
  outcome (get_response_handler self ri1 h1) = Return None ->
  200 <= status_code resp < 300 ->
  status_code resp <> 204 ->
  get_response_content_type resp = Some ct ->
  truthy ct = true ->
  factory_get_root_parse_node env h1 ct (content resp) = Return None ->
  io (send env self (SendObject parsable_factory) (Some ri) em h) =
  (Return VNone, (h1 ++ [ParseRoot ct (content resp)])%list).
Proof.
  intros H Hh Hs Hn Hc Ht Hf.
  assert (Hok : forall ps ats,
             throw_failed_responses env resp em ps ats h1 = (Return tt, h1,
                 [])).
  { intros. apply throw_failed_responses_success, is_success_iff. lia. }
  enter_send H Hh. pass_resolution Hok.
  unfold _should_return_none.
  replace (status_code resp =? 204) with false by lia.
  io_next. rewrite (io_root _ _ _ _ _ ct None) by assumption. reflexivity.
Qed.

(** X19: [send_collection_async], which has no such check, raises
    [AttributeError] when the parse node factory finds no root node. *)
Theorem collection_of_missing_root_raises parsable_factory ri (em : ErrorMap) h
  ri1 resp h1 ct :
  io (get_http_response_message env self ri
        (parent_span_of env "send_collection_async" ri) EmptyString h)
  = (Return (ri1, resp), h1) ->
  outcome (get_response_handler self ri1 h1) = Return None ->
  200 <= status_code resp < 300 ->
  status_code resp <> 204 ->
  get_response_content_type resp = Some ct ->
  truthy ct = true ->
  factory_get_root_parse_node env h1 ct (content resp) = Return None ->
  io (send env self (SendCollection parsable_factory) (Some ri) em h) =
  (Raise (AttributeError
            "'NoneType' object has no attribute 'get_collection_of_object_values'"),
   (h1 ++ [ParseRoot ct (content resp)])%list).
Proof.
  intros H Hh Hs Hn Hc Ht Hf.
  assert (Hok : forall ps ats,
             throw_failed_responses env resp em ps ats h1 = (Return tt, h1,
                 [])).
  { intros. apply throw_failed_responses_success, is_success_iff. lia. }
  enter_send H Hh. pass_resolution Hok.
  unfold _should_return_none.
  replace (status_code resp =? 204) with false by lia.
  io_simpl. io_next. rewrite (io_root _ _ _ _ _ ct None) by assumption.
  reflexivity.
Qed.

(** X20: on a 2xx response other than 204, [send_async] hands the body
    to the parse node factory once and returns, or raises, what the root
    node's [get_object_value] gives for the factory passed to the send. *)
Theorem object_is_materialized_by_factory parsable_factory ri (em : ErrorMap) h
  ri1 resp h1 ct node :
  io (get_http_response_message env self ri
        (parent_span_of env "send_async" ri) EmptyString h)
  = (Return (ri1, resp), h1) ->
  outcome (get_response_handler self ri1 h1) = Return None ->
  200 <= status_code resp < 300 ->
  status_code resp <> 204 ->
  get_response_content_type resp = Some ct ->
  truthy ct = true ->
  factory_get_root_parse_node env h1 ct (content resp) = Return (Some node) ->
  io (send env self (SendObject parsable_factory) (Some ri) em h) =
  (node_method env (h1 ++ [ParseRoot ct (content resp)])%list node
     (GetObjectValue (Some parsable_factory)),
   (h1 ++ [ParseRoot ct (content resp);
           NodeCall node (GetObjectValue (Some parsable_factory))])%list).
Proof.
  intros H Hh Hs Hn Hc Ht Hf.
  assert (Hok : forall ps ats,
             throw_failed_responses env resp em ps ats h1 = (Return tt, h1,
                 [])).
  { intros. apply throw_failed_responses_success, is_success_iff. lia. }
  enter_send H Hh. pass_resolution Hok.
  unfold _should_return_none.
  replace (status_code resp =? 204) with false by lia.
  io_next. rewrite (io_root _ _ _ _ _ ct (Some node)) by assumption.
  io_simpl. unfold node_call. io_simpl. rewrite <- List.app_assoc.
  destruct (node_method env _ node _); reflexivity.
Qed.

(** X21: [send_collection_of_primitive_async] hands the body to the
    parse node factory twice, and reads the collection from the second
    root node. *)
Theorem primitive_collection_parses_twice response_type ri (em : ErrorMap) h
  ri1 resp h1 ct first node :
  io (get_http_response_message env self ri
        (parent_span_of env "send_collection_of_primitive_async" ri)
        EmptyString h)
  = (Return (ri1, resp), h1) ->
  outcome (get_response_handler self ri1 h1) = Return None ->
  200 <= status_code resp < 300 ->
  status_code resp <> 204 ->
  get_response_content_type resp = Some ct ->
  truthy ct = true ->
  factory_get_root_parse_node env h1 ct (content resp) = Return first ->
  factory_get_root_parse_node env
    (h1 ++ [ParseRoot ct (content resp)])%list ct (content resp)
  = Return (Some node) ->
  io (send env self (SendCollectionOfPrimitive response_type) (Some ri) em h) =
  (node_method env
     (h1 ++ [ParseRoot ct (content resp); ParseRoot ct (content resp)])%list
     node (GetCollectionOfPrimitiveValues response_type),
   (h1 ++ [ParseRoot ct (content resp); ParseRoot ct (content resp);
           NodeCall node (GetCollectionOfPrimitiveValues response_type)])%list).
Proof.
  intros H Hh Hs Hn Hc Ht Hf1 Hf2.
  assert (Hok : forall ps ats,
             throw_failed_responses env resp em ps ats h1 = (Return tt, h1,
                 [])).
  { intros. apply throw_failed_responses_success, is_success_iff. lia. }
  enter_send H Hh. pass_resolution Hok.
  unfold _should_return_none.
  replace (status_code resp =? 204) with false by lia.
  io_next. rewrite (io_root _ _ _ _ _ ct first) by assumption.
  io_simpl. io_next.
  rewrite (io_root _ _ _ _ _ ct (Some node)) by assumption.
  unfold node_call. io_simpl. rewrite <- !List.app_assoc. cbn [List.app].
  destruct (node_method env _ node _); reflexivity.
Qed.

End WithCollaborators.

Lemma dispatch_failure_propagates_witness :
  (recursion_limit adapter <> 0%nat)
  /\ (io (dispatch_once (refusing [] ok_json) adapter users_request
      (parent_span_of (refusing [] ok_json) (send_name (SendObject "User"))
      users_request) EmptyString []) = (Raise (OtherError "AuthenticationError"
      "no token"), [Authenticate (based users_request) ∅]))
  /\ (io (send (refusing [] ok_json) adapter (SendObject "User") (Some
      users_request) exact_and_class []) = (Raise (OtherError
      "AuthenticationError" "no token"), [Authenticate (based users_request)
      ∅])).
Proof.
  assert (H1 : recursion_limit adapter <> 0%nat)
    by (simpl; lia).
  assert (H2 : io (dispatch_once (refusing [] ok_json) adapter users_request
      (parent_span_of (refusing [] ok_json) (send_name (SendObject "User"))
      users_request) EmptyString []) = (Raise (OtherError "AuthenticationError"
      "no token"), [Authenticate (based users_request) ∅]))
    by (vm_compute; reflexivity).
  split; [exact H1|].
  split; [exact H2|].
  exact (dispatch_failure_propagates (refusing [] ok_json) adapter (SendObject
      "User") users_request exact_and_class [] _ _ H1 H2).
Defined.

Lemma failure_resolution_precedes_deserialization_witness :
  (io (get_http_response_message (scripted [] not_found) adapter users_request
      (parent_span_of (scripted [] not_found) (send_name (SendCollection
      "User")) users_request) EmptyString []) = (Return (based users_request,
      not_found), cycle users_request "send_collection_async" ∅))
  /\ (outcome (get_response_handler adapter (based users_request) (cycle
      users_request "send_collection_async" ∅)) = Return None)
  /\ (outcome (throw_failed_responses (scripted [] not_found) not_found
      exact_and_class (parent_span_of (scripted [] not_found) (send_name
      (SendCollection "User")) users_request) (parent_span_of (scripted []
      not_found) (send_name (SendCollection "User")) users_request) (cycle
      users_request "send_collection_async" ∅)) = Raise (RaisedAPIError {|
      error_class_name := "APIError"; message :=
      "Unexpected error type: <class 'object'>"; response_status_code := Some
      404; response_headers := Some [("Content-Type",
      "application/json; charset=utf-8")] |}))
  /\ (io (send (scripted [] not_found) adapter (SendCollection "User") (Some
      users_request) exact_and_class []) = (Raise (RaisedAPIError {|
      error_class_name := "APIError"; message :=
      "Unexpected error type: <class 'object'>"; response_status_code := Some
      404; response_headers := Some [("Content-Type",
      "application/json; charset=utf-8")] |}), (cycle users_request
      "send_collection_async" ∅ ++ [ParseRoot "application/json" "{}"; NodeCall
      "{}" (GetObjectValue (Some "F1"))])%list)).
Proof.
  assert (H1 : io (get_http_response_message (scripted [] not_found) adapter
      users_request (parent_span_of (scripted [] not_found) (send_name
      (SendCollection "User")) users_request) EmptyString []) = (Return (based
      users_request, not_found), cycle users_request "send_collection_async" ∅))
    by (vm_compute; reflexivity).
  assert (H2 : outcome (get_response_handler adapter (based users_request)
      (cycle users_request "send_collection_async" ∅)) = Return None)
    by (vm_compute; reflexivity).
  assert (H3 : outcome (throw_failed_responses (scripted [] not_found) not_found
      exact_and_class (parent_span_of (scripted [] not_found) (send_name
      (SendCollection "User")) users_request) (parent_span_of (scripted []
      not_found) (send_name (SendCollection "User")) users_request) (cycle
      users_request "send_collection_async" ∅)) = Raise (RaisedAPIError {|
      error_class_name := "APIError"; message :=
      "Unexpected error type: <class 'object'>"; response_status_code := Some
      404; response_headers := Some [("Content-Type",
      "application/json; charset=utf-8")] |}))
    by (vm_compute; reflexivity).
  split; [exact H1|].
  split; [exact H2|].
  split; [exact H3|].
  exact (failure_resolution_precedes_deserialization (scripted [] not_found)
      adapter (SendCollection "User") users_request exact_and_class [] _ _ _ _
      H1 H2 H3).
Defined.

Lemma bytes_are_returned_unparsed_witness :
  (io (get_http_response_message (scripted [] ok_untyped) adapter users_request
      (parent_span_of (scripted [] ok_untyped) "send_primitive_async"
      users_request) EmptyString []) = (Return (based users_request,
      ok_untyped), cycle users_request "send_primitive_async" ∅))
  /\ (outcome (get_response_handler adapter (based users_request) (cycle
      users_request "send_primitive_async" ∅)) = Return None)
  /\ (200 <= status_code ok_untyped < 300)
  /\ (status_code ok_untyped <> 204)
  /\ (io (send (scripted [] ok_untyped) adapter (SendPrimitive "bytes") (Some
      users_request) ∅ []) = (Return (VBytes "hello"), cycle users_request
      "send_primitive_async" ∅)).
Proof.
  assert (H1 : io (get_http_response_message (scripted [] ok_untyped) adapter
      users_request (parent_span_of (scripted [] ok_untyped)
      "send_primitive_async" users_request) EmptyString []) = (Return (based
      users_request, ok_untyped), cycle users_request "send_primitive_async" ∅))
    by (vm_compute; reflexivity).
  assert (H2 : outcome (get_response_handler adapter (based users_request)
      (cycle users_request "send_primitive_async" ∅)) = Return None)
    by (vm_compute; reflexivity).
  assert (H3 : 200 <= status_code ok_untyped < 300)
    by (simpl; lia).
  assert (H4 : status_code ok_untyped <> 204)
    by (simpl; lia).
  split; [exact H1|].
  split; [exact H2|].
  split; [exact H3|].
  split; [exact H4|].
  exact (bytes_are_returned_unparsed (scripted [] ok_untyped) adapter
      users_request ∅ [] _ _ _ H1 H2 H3 H4).
Defined.

Lemma unknown_primitive_kind_raises_after_parsing_witness :
  (io (get_http_response_message (scripted [] ok_json) adapter users_request
      (parent_span_of (scripted [] ok_json) "send_primitive_async"
      users_request) EmptyString []) = (Return (based users_request, ok_json),
      cycle users_request "send_primitive_async" ∅))
  /\ (outcome (get_response_handler adapter (based users_request) (cycle
      users_request "send_primitive_async" ∅)) = Return None)
  /\ (200 <= status_code ok_json < 300)
  /\ (status_code ok_json <> 204)
  /\ ("uuid" <> "bytes")
  /\ (known_primitive "uuid" = false)
  /\ (get_response_content_type ok_json = Some "application/json")
  /\ (truthy "application/json" = true)
  /\ (factory_get_root_parse_node (scripted [] ok_json) (cycle users_request
      "send_primitive_async" ∅) "application/json" (content ok_json) = Return
      (Some "{}"))
  /\ (io (send (scripted [] ok_json) adapter (SendPrimitive "uuid") (Some
      users_request) ∅ []) = (Raise (TypeError
      "Unable to deserialize type: 'uuid'"), (cycle users_request
      "send_primitive_async" ∅ ++ [ParseRoot "application/json" "{}"])%list)).
Proof.
  assert (H1 : io (get_http_response_message (scripted [] ok_json) adapter
      users_request (parent_span_of (scripted [] ok_json) "send_primitive_async"
      users_request) EmptyString []) = (Return (based users_request, ok_json),
      cycle users_request "send_primitive_async" ∅))
    by (vm_compute; reflexivity).
  assert (H2 : outcome (get_response_handler adapter (based users_request)
      (cycle users_request "send_primitive_async" ∅)) = Return None)
    by (vm_compute; reflexivity).
  assert (H3 : 200 <= status_code ok_json < 300)
    by (simpl; lia).
  assert (H4 : status_code ok_json <> 204)
    by (simpl; lia).
  assert (H5 : "uuid" <> "bytes")
    by (discriminate).
  assert (H6 : known_primitive "uuid" = false)
    by (reflexivity).
  assert (H7 : get_response_content_type ok_json = Some "application/json")
    by (vm_compute; reflexivity).
  assert (H8 : truthy "application/json" = true)
    by (reflexivity).
  assert (H9 : factory_get_root_parse_node (scripted [] ok_json) (cycle
      users_request "send_primitive_async" ∅) "application/json" (content
      ok_json) = Return (Some "{}"))
    by (vm_compute; reflexivity).
  split; [exact H1|].
  split; [exact H2|].
  split; [exact H3|].
  split; [exact H4|].
  split; [exact H5|].
  split; [exact H6|].
  split; [exact H7|].
  split; [exact H8|].
  split; [exact H9|].
  exact (unknown_primitive_kind_raises_after_parsing (scripted [] ok_json)
      adapter "uuid" users_request ∅ [] _ _ _ _ _ H1 H2 H3 H4 H5 H6 H7 H8 H9).
Defined.

Lemma null_primitive_raises_witness :
  (io (get_http_response_message (erring [] ok_json) adapter users_request
      (parent_span_of (erring [] ok_json) "send_primitive_async" users_request)
      EmptyString []) = (Return (based users_request, ok_json), cycle
      users_request "send_primitive_async" ∅))
  /\ (outcome (get_response_handler adapter (based users_request) (cycle
      users_request "send_primitive_async" ∅)) = Return None)
  /\ (200 <= status_code ok_json < 300)
  /\ (status_code ok_json <> 204)
  /\ (get_response_content_type ok_json = Some "application/json")
  /\ (truthy "application/json" = true)
  /\ (factory_get_root_parse_node (erring [] ok_json) (cycle users_request
      "send_primitive_async" ∅) "application/json" (content ok_json) = Return
      (Some "{}"))
  /\ (node_method (erring [] ok_json) (cycle users_request
      "send_primitive_async" ∅ ++ [ParseRoot "application/json" (content
      ok_json)])%list "{}" GetStrValue = Return VNone)
  /\ (io (send (erring [] ok_json) adapter (SendPrimitive "str") (Some
      users_request) ∅ []) = (Raise (TypeError
      "Unable to deserialize type: 'str'"), (cycle users_request
      "send_primitive_async" ∅ ++ [ParseRoot "application/json" "{}"; NodeCall
      "{}" GetStrValue])%list)).
Proof.
  assert (H1 : io (get_http_response_message (erring [] ok_json) adapter
      users_request (parent_span_of (erring [] ok_json) "send_primitive_async"
      users_request) EmptyString []) = (Return (based users_request, ok_json),
      cycle users_request "send_primitive_async" ∅))
    by (vm_compute; reflexivity).
  assert (H2 : outcome (get_response_handler adapter (based users_request)
      (cycle users_request "send_primitive_async" ∅)) = Return None)
    by (vm_compute; reflexivity).
  assert (H3 : 200 <= status_code ok_json < 300)
    by (simpl; lia).
  assert (H4 : status_code ok_json <> 204)
    by (simpl; lia).
  assert (H5 : get_response_content_type ok_json = Some "application/json")
    by (vm_compute; reflexivity).
  assert (H6 : truthy "application/json" = true)
    by (reflexivity).
  assert (H7 : factory_get_root_parse_node (erring [] ok_json) (cycle
      users_request "send_primitive_async" ∅) "application/json" (content
      ok_json) = Return (Some "{}"))
    by (vm_compute; reflexivity).
  assert (H8 : node_method (erring [] ok_json) (cycle users_request
      "send_primitive_async" ∅ ++ [ParseRoot "application/json" (content
      ok_json)])%list "{}" GetStrValue = Return VNone)
    by (reflexivity).
  split; [exact H1|].
  split; [exact H2|].
  split; [exact H3|].
  split; [exact H4|].
  split; [exact H5|].
  split; [exact H6|].
  split; [exact H7|].
  split; [exact H8|].
  exact (null_primitive_raises (erring [] ok_json) adapter users_request ∅ [] _
      _ _ _ _ H1 H2 H3 H4 H5 H6 H7 H8).
Defined.

Lemma no_response_content_returns_none_witness :
  (io (get_http_response_message (scripted [] ok_json) adapter users_request
      (parent_span_of (scripted [] ok_json) "send_no_response_content_async"
      users_request) EmptyString []) = (Return (based users_request, ok_json),
      cycle users_request "send_no_response_content_async" ∅))
  /\ (outcome (get_response_handler adapter (based users_request) (cycle
      users_request "send_no_response_content_async" ∅)) = Return None)
  /\ (200 <= status_code ok_json < 300)
  /\ (io (send (scripted [] ok_json) adapter SendNoResponseContent (Some
      users_request) exact_and_class []) = (Return VNone, cycle users_request
      "send_no_response_content_async" ∅)).
Proof.
  assert (H1 : io (get_http_response_message (scripted [] ok_json) adapter
      users_request (parent_span_of (scripted [] ok_json)
      "send_no_response_content_async" users_request) EmptyString []) = (Return
      (based users_request, ok_json), cycle users_request
      "send_no_response_content_async" ∅))
    by (vm_compute; reflexivity).
  assert (H2 : outcome (get_response_handler adapter (based users_request)
      (cycle users_request "send_no_response_content_async" ∅)) = Return None)
    by (vm_compute; reflexivity).
  assert (H3 : 200 <= status_code ok_json < 300)
    by (simpl; lia).
  split; [exact H1|].
  split; [exact H2|].
  split; [exact H3|].
  exact (no_response_content_returns_none (scripted [] ok_json) adapter
      users_request exact_and_class [] _ _ _ H1 H2 H3).
Defined.

Lemma object_of_missing_root_is_none_witness :
  (io (get_http_response_message (rootless [] ok_json) adapter users_request
      (parent_span_of (rootless [] ok_json) "send_async" users_request)
      EmptyString []) = (Return (based users_request, ok_json), cycle
      users_request "send_async" ∅))
  /\ (outcome (get_response_handler adapter (based users_request) (cycle
      users_request "send_async" ∅)) = Return None)
  /\ (200 <= status_code ok_json < 300)
  /\ (status_code ok_json <> 204)
  /\ (get_response_content_type ok_json = Some "application/json")
  /\ (truthy "application/json" = true)
  /\ (factory_get_root_parse_node (rootless [] ok_json) (cycle users_request
      "send_async" ∅) "application/json" (content ok_json) = Return None)
  /\ (io (send (rootless [] ok_json) adapter (SendObject "User") (Some
      users_request) ∅ []) = (Return VNone, (cycle users_request "send_async" ∅
      ++ [ParseRoot "application/json" "{}"])%list)).
Proof.
  assert (H1 : io (get_http_response_message (rootless [] ok_json) adapter
      users_request (parent_span_of (rootless [] ok_json) "send_async"
      users_request) EmptyString []) = (Return (based users_request, ok_json),
      cycle users_request "send_async" ∅))
    by (vm_compute; reflexivity).
  assert (H2 : outcome (get_response_handler adapter (based users_request)
      (cycle users_request "send_async" ∅)) = Return None)
    by (vm_compute; reflexivity).
  assert (H3 : 200 <= status_code ok_json < 300)
    by (simpl; lia).
  assert (H4 : status_code ok_json <> 204)
    by (simpl; lia).
  assert (H5 : get_response_content_type ok_json = Some "application/json")
    by (vm_compute; reflexivity).
  assert (H6 : truthy "application/json" = true)
    by (reflexivity).
  assert (H7 : factory_get_root_parse_node (rootless [] ok_json) (cycle
      users_request "send_async" ∅) "application/json" (content ok_json) =
      Return None)
    by (vm_compute; reflexivity).
  split; [exact H1|].
  split; [exact H2|].
  split; [exact H3|].
  split; [exact H4|].
  split; [exact H5|].
  split; [exact H6|].
  split; [exact H7|].
  exact (object_of_missing_root_is_none (rootless [] ok_json) adapter "User"
      users_request ∅ [] _ _ _ _ H1 H2 H3 H4 H5 H6 H7).
Defined.

Lemma collection_of_missing_root_raises_witness :
  (io (get_http_response_message (rootless [] ok_json) adapter users_request
      (parent_span_of (rootless [] ok_json) "send_collection_async"
      users_request) EmptyString []) = (Return (based users_request, ok_json),
      cycle users_request "send_collection_async" ∅))
  /\ (outcome (get_response_handler adapter (based users_request) (cycle
      users_request "send_collection_async" ∅)) = Return None)
  /\ (200 <= status_code ok_json < 300)
  /\ (status_code ok_json <> 204)
  /\ (get_response_content_type ok_json = Some "application/json")
  /\ (truthy "application/json" = true)
  /\ (factory_get_root_parse_node (rootless [] ok_json) (cycle users_request
      "send_collection_async" ∅) "application/json" (content ok_json) = Return
      None)
  /\ (io (send (rootless [] ok_json) adapter (SendCollection "User") (Some
      users_request) ∅ []) = (Raise (AttributeError
      "'NoneType' object has no attribute 'get_collection_of_object_values'"),
      (cycle users_request "send_collection_async" ∅ ++ [ParseRoot
      "application/json" "{}"])%list)).
Proof.
  assert (H1 : io (get_http_response_message (rootless [] ok_json) adapter
      users_request (parent_span_of (rootless [] ok_json)
      "send_collection_async" users_request) EmptyString []) = (Return (based
      users_request, ok_json), cycle users_request "send_collection_async" ∅))
    by (vm_compute; reflexivity).
  assert (H2 : outcome (get_response_handler adapter (based users_request)
      (cycle users_request "send_collection_async" ∅)) = Return None)
    by (vm_compute; reflexivity).
  assert (H3 : 200 <= status_code ok_json < 300)
    by (simpl; lia).
  assert (H4 : status_code ok_json <> 204)
    by (simpl; lia).
  assert (H5 : get_response_content_type ok_json = Some "application/json")
    by (vm_compute; reflexivity).
  assert (H6 : truthy "application/json" = true)
    by (reflexivity).
  assert (H7 : factory_get_root_parse_node (rootless [] ok_json) (cycle
      users_request "send_collection_async" ∅) "application/json" (content
      ok_json) = Return None)
    by (vm_compute; reflexivity).
  split; [exact H1|].
  split; [exact H2|].
  split; [exact H3|].
  split; [exact H4|].
  split; [exact H5|].
  split; [exact H6|].
  split; [exact H7|].
  exact (collection_of_missing_root_raises (rootless [] ok_json) adapter "User"
      users_request ∅ [] _ _ _ _ H1 H2 H3 H4 H5 H6 H7).
Defined.

Lemma object_is_materialized_by_factory_witness :
  (io (get_http_response_message (scripted [] ok_json) adapter users_request
      (parent_span_of (scripted [] ok_json) "send_async" users_request)
      EmptyString []) = (Return (based users_request, ok_json), cycle
      users_request "send_async" ∅))
  /\ (outcome (get_response_handler adapter (based users_request) (cycle
      users_request "send_async" ∅)) = Return None)
  /\ (200 <= status_code ok_json < 300)
  /\ (status_code ok_json <> 204)
  /\ (get_response_content_type ok_json = Some "application/json")
  /\ (truthy "application/json" = true)
  /\ (factory_get_root_parse_node (scripted [] ok_json) (cycle users_request
      "send_async" ∅) "application/json" (content ok_json) = Return (Some "{}"))
  /\ (io (send (scripted [] ok_json) adapter (SendObject "User") (Some
      users_request) ∅ []) = (Return (VModel "User" "{}"), (cycle users_request
      "send_async" ∅ ++ [ParseRoot "application/json" "{}"; NodeCall "{}"
      (GetObjectValue (Some "User"))])%list)).
Proof.
  assert (H1 : io (get_http_response_message (scripted [] ok_json) adapter
      users_request (parent_span_of (scripted [] ok_json) "send_async"
      users_request) EmptyString []) = (Return (based users_request, ok_json),
      cycle users_request "send_async" ∅))
    by (vm_compute; reflexivity).
  assert (H2 : outcome (get_response_handler adapter (based users_request)
      (cycle users_request "send_async" ∅)) = Return None)
    by (vm_compute; reflexivity).
  assert (H3 : 200 <= status_code ok_json < 300)
    by (simpl; lia).
  assert (H4 : status_code ok_json <> 204)
    by (simpl; lia).
  assert (H5 : get_response_content_type ok_json = Some "application/json")
    by (vm_compute; reflexivity).
  assert (H6 : truthy "application/json" = true)
    by (reflexivity).
  assert (H7 : factory_get_root_parse_node (scripted [] ok_json) (cycle
      users_request "send_async" ∅) "application/json" (content ok_json) =
      Return (Some "{}"))
    by (vm_compute; reflexivity).
  split; [exact H1|].
  split; [exact H2|].
  split; [exact H3|].
  split; [exact H4|].
  split; [exact H5|].
  split; [exact H6|].
  split; [exact H7|].
  exact (object_is_materialized_by_factory (scripted [] ok_json) adapter "User"
      users_request ∅ [] _ _ _ _ _ H1 H2 H3 H4 H5 H6 H7).
Defined.

Lemma primitive_collection_parses_twice_witness :
  (io (get_http_response_message (scripted [] ok_json) adapter users_request
      (parent_span_of (scripted [] ok_json) "send_collection_of_primitive_async"
      users_request) EmptyString []) = (Return (based users_request, ok_json),
      cycle users_request "send_collection_of_primitive_async" ∅))
  /\ (outcome (get_response_handler adapter (based users_request) (cycle
      users_request "send_collection_of_primitive_async" ∅)) = Return None)
  /\ (200 <= status_code ok_json < 300)
  /\ (status_code ok_json <> 204)
  /\ (get_response_content_type ok_json = Some "application/json")
  /\ (truthy "application/json" = true)
  /\ (factory_get_root_parse_node (scripted [] ok_json) (cycle users_request
      "send_collection_of_primitive_async" ∅) "application/json" (content
      ok_json) = Return (Some "{}"))
  /\ (factory_get_root_parse_node (scripted [] ok_json) (cycle users_request
      "send_collection_of_primitive_async" ∅ ++ [ParseRoot "application/json"
      (content ok_json)])%list "application/json" (content ok_json) = Return
      (Some "{}"))
  /\ (io (send (scripted [] ok_json) adapter (SendCollectionOfPrimitive "str")
      (Some users_request) ∅ []) = (Return (VList []), (cycle users_request
      "send_collection_of_primitive_async" ∅ ++ [ParseRoot "application/json"
      "{}"; ParseRoot "application/json" "{}"; NodeCall "{}"
      (GetCollectionOfPrimitiveValues "str")])%list)).
Proof.
  assert (H1 : io (get_http_response_message (scripted [] ok_json) adapter
      users_request (parent_span_of (scripted [] ok_json)
      "send_collection_of_primitive_async" users_request) EmptyString []) =
      (Return (based users_request, ok_json), cycle users_request
      "send_collection_of_primitive_async" ∅))
    by (vm_compute; reflexivity).
  assert (H2 : outcome (get_response_handler adapter (based users_request)
      (cycle users_request "send_collection_of_primitive_async" ∅)) = Return
      None)
    by (vm_compute; reflexivity).
  assert (H3 : 200 <= status_code ok_json < 300)
    by (simpl; lia).
  assert (H4 : status_code ok_json <> 204)
    by (simpl; lia).
  assert (H5 : get_response_content_type ok_json = Some "application/json")
    by (vm_compute; reflexivity).
  assert (H6 : truthy "application/json" = true)
    by (reflexivity).
  assert (H7 : factory_get_root_parse_node (scripted [] ok_json) (cycle
      users_request "send_collection_of_primitive_async" ∅) "application/json"
      (content ok_json) = Return (Some "{}"))
    by (vm_compute; reflexivity).
  assert (H8 : factory_get_root_parse_node (scripted [] ok_json) (cycle
      users_request "send_collection_of_primitive_async" ∅ ++ [ParseRoot
      "application/json" (content ok_json)])%list "application/json" (content
      ok_json) = Return (Some "{}"))
    by (vm_compute; reflexivity).
  split; [exact H1|].
  split; [exact H2|].
  split; [exact H3|].
  split; [exact H4|].
  split; [exact H5|].
  split; [exact H6|].
  split; [exact H7|].
  split; [exact H8|].
  exact (primitive_collection_parses_twice (scripted [] ok_json) adapter "str"
      users_request ∅ [] _ _ _ _ _ _ H1 H2 H3 H4 H5 H6 H7 H8).
Defined.

Lemma spans_bracket {A} (p : Span) (body : Span -> M A) h :
  exists mid,
    spans (bind (bind (emit (SpanStart p)) (fun _ => ret p))
             (fun q => finally (body q) (span_end q)) h)
    = SpanStart p :: (mid ++ [SpanEnd p])%list.
Proof.
  unfold spans, bind, finally, emit, ret, span_end. cbn.
  destruct (body p h) as [[r h1] s1]. cbn. exists s1. reflexivity.
Qed.

(** X22: for every send variant and every request that is present, the
    span events of the send begin with the start of the parent span and end
    with its end, whatever happens in between: the span is closed on every
    way out. *)
Theorem parent_span_brackets_every_send env self v ri (em : ErrorMap) h :
  exists mid,
    spans (send env self v (Some ri) em h)
    = SpanStart (parent_span_of env (send_name v) ri)
      :: (mid ++ [SpanEnd (parent_span_of env (send_name v) ri)])%list.
Proof.
  destruct v; cbn [send send_name];
    unfold send_async, send_collection_async,
      send_collection_of_primitive_async, send_primitive_async,
      send_no_response_content_async;
    rewrite start_tracing_span_some; apply spans_bracket.
Qed.

End SendProperties.

(** ** The native request, the conversion and the base URL *)

Module NativeRequest.
Import PyStr Re Httpx Model Comp HttpxRequestAdapter Phases Scenario CompFacts.
Import Dispatch.
#[local] Open Scope comp_scope.

Lemma io_get_request_from_request_information env self ri ps ats h :
  io (get_request_from_request_information env self ri ps ats h) =
  match request_url env ri with
  | Return url =>
      match urlparse env url with
      | Return _ =>
          match build_request env (method_value (http_method ri)) url
                  (request_headers ri) (request_content ri) with
          | Return request =>
              (Return
                 {| req_method := req_method request;
                    req_url := req_url request;
                    req_headers := req_headers request;
                    req_content := req_content request;
                    req_options :=
                      request_options ri
                      ∪ <["parent_span" := ParentSpanOption ps]>
                          {[observability_key self := ObservabilityOption]} |},
               h)
          | Raise e => (Raise e, h)
          end
      | Raise e => (Raise e, h)
      end
  | Raise e => (Raise e, h)
  end.
Proof.
  unfold get_request_from_request_information. io_simpl.
  destruct (request_url env ri) as [url|]; [|reflexivity].
  destruct (urlparse env url); [|reflexivity]. io_simpl.
  destruct (build_request env _ url _ _); [|reflexivity]. io_simpl.
  reflexivity.
Qed.

(** X23: when [get_request_from_request_information] returns a request,
    it has called no collaborator that does I/O, every option of the
    request information is on the native request under its key (the
    caller's options win over the adapter's own two), and, unless the
    caller has one under that key, the parent_span entry is the span
    passed in. *)
Theorem caller_options_reach_the_native_request env self ri ps ats h req h1 :
  io (get_request_from_request_information env self ri ps ats h)
  = (Return req, h1) ->
  h1 = h
  /\ (forall key option,
        request_options ri !! key = Some option ->
        req_options req !! key = Some option)
  /\ (request_options ri !! "parent_span" = None ->
      req_options req !! "parent_span" = Some (ParentSpanOption ps)).
Proof.
  rewrite io_get_request_from_request_information.
  destruct (request_url env ri) as [url|]; [|discriminate].
  destruct (urlparse env url); [|discriminate].
  destruct (build_request env _ url _ _); [|discriminate].
  intros [= <- <-]. split; [reflexivity|]. cbn [req_options]. split.
  - intros key option Hk. now apply lookup_union_Some_l.
  - intros Hk. rewrite lookup_union_r by exact Hk.
    apply lookup_insert_eq.
Qed.

Lemma caller_options_reach_the_native_request_witness :
  (io (get_request_from_request_information (scripted [] ok_json) adapter
      (with_handler "on_response") (dispatch_span "send_async") (span_of
      "send_async") []) = (Return (native_request (with_handler "on_response")
      "send_async"), []))
  /\ (@nil IOEvent = []
     /\ (forall key option,
           request_options (with_handler "on_response") !! key = Some option ->
           req_options (native_request (with_handler "on_response")
               "send_async")
             !! key = Some option)
     /\ (request_options (with_handler "on_response") !! "parent_span" = None ->
         req_options (native_request (with_handler "on_response") "send_async")
           !! "parent_span"
         = Some (ParentSpanOption (dispatch_span "send_async")))).
Proof.
  assert (H1 : io (get_request_from_request_information (scripted [] ok_json)
      adapter (with_handler "on_response") (dispatch_span "send_async") (span_of
      "send_async") []) = (Return (native_request (with_handler "on_response")
      "send_async"), []))
    by (vm_compute; reflexivity).
  split; [exact H1|].
  exact (caller_options_reach_the_native_request (scripted [] ok_json) adapter
      (with_handler "on_response") (dispatch_span "send_async") (span_of
      "send_async") [] _ _ H1).
Defined.

(** X24: [convert_to_native_async] of an absent request raises the
    [AttributeError] of [start_tracing_span]; of a present request it
    calls the authentication provider once, with the request information
    as given (no base URL is set) and an empty context, and calls nothing
    else: no request is sent. *)
Theorem convert_to_native_only_authenticates env self :
  (forall h,
     convert_to_native_async env self None h
     = (Raise (AttributeError
                 "'NoneType' object has no attribute 'url_template'"), h, []))
  /\ (forall ri h,
        history (convert_to_native_async env self (Some ri) h)
        = (h ++ [Authenticate ri ∅])%list).
Proof.
  split; [reflexivity|]. intros ri h. rewrite history_io.
  unfold convert_to_native_async. rewrite start_tracing_span_some. io_simpl.
  destruct (authenticate_request env h ri ∅) as [ri1|e]; [|reflexivity].
  rewrite io_bind, io_get_request_from_request_information.
  destruct (request_url env ri1) as [url|]; [|reflexivity].
  destruct (urlparse env url); [|reflexivity].
  destruct (build_request env _ url _ _); reflexivity.
Qed.

(** X25: one dispatch cycle calls the authentication provider first, with
    the request information whose baseurl path parameter is the adapter's
    base URL and with the context that holds the claims when there are
    some and is empty otherwise; after it comes at most one call, of the
    transport. *)
Theorem one_cycle_authenticates_then_sends env self ri sp claims h :
  exists rest,
    history (dispatch_once env self ri sp claims h)
    = (h ++ Authenticate (set_base_url_for_request_information self ri)
              (if truthy claims then {["claims" := claims]} else ∅)
            :: rest)%list
    /\ (rest = [] \/ exists request, rest = [Send request]).
Proof.
  rewrite history_io. unfold dispatch_once. io_simpl.
  destruct (authenticate_request env h _ _) as [ri1|e].
  - rewrite io_bind, io_get_request_from_request_information.
    destruct (request_url env ri1) as [url|];
      [|exists []; split; [reflexivity|now left]].
    destruct (urlparse env url); [|exists []; split; [reflexivity|now left]].
    destruct (build_request env _ url _ _) as [r|];
      [|exists []; split; [reflexivity|now left]].
    io_simpl.
    match goal with
    | |- context [Send ?q] => exists [Send q]
    end.
    split; [|right; eauto].
    destruct (http_client_send env _ _) as [resp|]; [|now rewrite <-
        List.app_assoc].
    io_simpl. unfold set_attribute_if_header.
    destruct (truthy (http_version resp));
      destruct (headers_get (headers resp) "Content-Length") as [l|];
      destruct (headers_get (headers resp) "Content-Type") as [t|];
      try destruct (truthy l); try destruct (truthy t); io_simpl;
      rewrite <- List.app_assoc; reflexivity.
  - exists []. split; [reflexivity|now left].
Qed.

(** X26: after any sequence of assignments to [base_url], the base URL
    is the last value assigned that is not empty, or the former one when
    there is none; it is what [set_base_url_for_request_information] puts
    under baseurl, leaving every other path parameter as it was. *)
Theorem base_url_is_the_last_value_set self values ri :
  base_url (List.fold_left base_url_setter values self)
  = List.last (List.filter truthy values) (base_url self)
  /\ path_parameters
       (set_base_url_for_request_information
          (List.fold_left base_url_setter values self) ri) !! "baseurl"
     = Some (List.last (List.filter truthy values) (base_url self))
  /\ (forall name, name <> "baseurl" ->
        path_parameters
          (set_base_url_for_request_information
             (List.fold_left base_url_setter values self) ri) !! name
        = path_parameters ri !! name).
Proof.
  assert (H : forall vs s,
             base_url (List.fold_left base_url_setter vs s)
             = List.last (List.filter truthy vs) (base_url s)).
  { induction vs as [|v vs IH]; intros s; [reflexivity|].
    cbn [List.fold_left List.filter]. rewrite IH. unfold base_url_setter.
    destruct (truthy v); [|reflexivity]. cbn [base_url].
    destruct (List.filter truthy vs) eqn:E; [reflexivity|].
    cbn [List.last]. symmetry.
    change (List.last (v :: s0 :: l) (base_url s)) with (List.last (s0 :: l)
        (base_url s)).
    clear. revert s0. induction l as [|x l IHl]; intros s0; [reflexivity|].
    change (List.last (s0 :: x :: l) ?d) with (List.last (x :: l) d).
    apply IHl. }
  split; [apply H|]. cbn [set_base_url_for_request_information path_parameters].
  split.
  - rewrite lookup_insert_eq. now rewrite H.
  - intros name Hne. now apply lookup_insert_ne.
Qed.

End NativeRequest.
